(** * wtforms_components.widgets: HTML5 input widgets and the optgroup-aware
    select widget, embedded as Rocq functions.

    Source: [src/wtforms_components/widgets.py].

    Conventions of the embedding.
    - A Python [dict] with string keys is a [gmap string _].
    - A mutable dict that outlives a call ([self.options]) lives in a store
      of dicts and is named by its location; the [__call__] methods run in
      a state-and-exception monad over that store.
    - Exceptions are values of [exc]; a computation that may raise returns
      [res A].
    - Functions of the host framework (wtforms) that the module calls but
      does not define are the fields of the class [Host].

    Limits of the data model: numeric bounds are integers; dates and times
    are naive and to the second, and a date is the datetime at its
    midnight; a validator is an instance of exactly one class (no
    subclasses); values in keyword arguments, keys, values and labels of
    choices are scalars ([None], booleans, integers, strings). *)

From Stdlib Require Import ZArith NArith Lia Ascii.
From stdpp Require Import base option strings list gmap fin_maps pretty sorting.

Open Scope Z_scope.

(** ** Python values *)

(** The scalar values that travel through keyword arguments, choice keys,
    choice values and labels. *)
Inductive value :=
| VNone
| VBool (b : bool)
| VInt (n : Z)
| VStr (s : string).

Abbreviation dict := (gmap string value).

(** A rendered fragment: [wtforms.widgets.HTMLString] is a [str] subclass. *)
Abbreviation HTMLString := string.

Inductive exc :=
| AttributeError
| TypeError.

Inductive res (A : Type) :=
| Ok (a : A)
| Raise (e : exc).
Arguments Ok {A} a.
Arguments Raise {A} e.

#[global] Instance value_eq_dec : EqDecision value.
Proof. solve_decision. Defined.

#[global] Instance exc_eq_dec : EqDecision exc.
Proof. solve_decision. Defined.

#[global] Instance res_ret : MRet res := λ A a, Ok a.
#[global] Instance res_bind : MBind res := λ A B f m,
  match m with
  | Ok a => f a
  | Raise e => Raise e
  end.
#[global] Instance res_fmap : FMap res := λ A B f m,
  match m with
  | Ok a => Ok (f a)
  | Raise e => Raise e
  end.

(** [a == b] on scalar values. [bool] is a subclass of [int], so [True == 1]. *)
Definition py_eq (a b : value) : bool :=
  match a, b with
  | VNone, VNone => true
  | VBool x, VBool y => bool_decide (x = y)
  | VBool x, VInt n | VInt n, VBool x => bool_decide (Z.b2z x = n)
  | VInt n, VInt m => bool_decide (n = m)
  | VStr s, VStr t => bool_decide (s = t)
  | _, _ => false
  end.

(** [x in xs] for a list [xs]. *)
Definition py_in (x : value) (xs : list value) : bool :=
  existsb (λ e, py_eq e x) xs.

(** [value is True]: identity with the singleton, so only the boolean. *)
Definition is_True (v : value) : bool :=
  match v with
  | VBool true => true
  | _ => false
  end.

(** [six.text_type(v)] / [wtforms.compat.text_type(v)]. *)
Definition text_type (v : value) : string :=
  match v with
  | VNone => "None"
  | VBool true => "True"
  | VBool false => "False"
  | VInt n => pretty n
  | VStr s => s
  end.

(** [s.replace(c, r)] for a one-character pattern [c]. *)
Fixpoint replace_char (c : ascii) (r : string) (s : string) : string :=
  match s with
  | EmptyString => EmptyString
  | String a s' =>
      if bool_decide (a = c) then r +:+ replace_char c r s'
      else String a (replace_char c r s')
  end.

(** [cgi.escape(s, quote)]: ampersand first, then the angle brackets, and
    the double quote only when [quote] is set. *)
Definition escape (s : string) (quote : bool) : string :=
  let s := replace_char "&"%char "&amp;" s in
  let s := replace_char "<"%char "&lt;" s in
  let s := replace_char ">"%char "&gt;" s in
  if quote then replace_char "034"%char "&quot;" s else s.

(** ** Comparable bounds

    [max] and [min] only need [<] (their [>] is the reflected [<]). The
    bound types of the range validators are totally ordered. *)
Class Comparable (B : Type) := py_lt : B → B → bool.

Class ComparableLaws (B : Type) `{Comparable B} : Prop := {
  py_lt_irrefl : ∀ a : B, py_lt a a = false;
  py_lt_trans : ∀ a b c : B, py_lt a b = true → py_lt b c = true → py_lt a c = true;
  py_lt_total : ∀ a b : B, py_lt a b = false → py_lt b a = false → a = b
}.

(** [max(x :: xs)]: keep the first item that no later item exceeds. *)
Definition py_max `{Comparable B} (x : B) (xs : list B) : B :=
  foldl (λ max_item item, if py_lt max_item item then item else max_item) x xs.

(** [min(x :: xs)]. *)
Definition py_min `{Comparable B} (x : B) (xs : list B) : B :=
  foldl (λ min_item item, if py_lt item min_item then item else min_item) x xs.

(** Python compares tuples, and the fields of dates and times, left to right. *)
Fixpoint lex_ltb (a b : list N) : bool :=
  match a, b with
  | x :: a', y :: b' => (x <? y)%N || ((x =? y)%N && lex_ltb a' b')
  | [], _ :: _ => true
  | _, _ => false
  end.

(** [datetime.datetime], naive and to the second. A [datetime.date] is the
    [datetime] at midnight of that day: [date.strftime] prints zero for the
    hour, minute and second. *)
Record datetime := Datetime {
  year : N; month : N; day : N;
  hour : N; minute : N; second : N
}.

(** [datetime.time], naive and to the second. *)
Record time := Time {
  t_hour : N; t_minute : N; t_second : N
}.

Definition datetime_fields (d : datetime) : list N :=
  [year d; month d; day d; hour d; minute d; second d].

Definition time_fields (t : time) : list N :=
  [t_hour t; t_minute t; t_second t].

#[global] Instance Z_comparable : Comparable Z := Z.ltb.
#[global] Instance datetime_comparable : Comparable datetime :=
  λ a b, lex_ltb (datetime_fields a) (datetime_fields b).
#[global] Instance time_comparable : Comparable time :=
  λ a b, lex_ltb (time_fields a) (time_fields b).

(** ** strftime *)

(** [time.struct_time], the fields that the directives below read. *)
Record struct_time := StructTime {
  tm_year : N; tm_mon : N; tm_mday : N;
  tm_hour : N; tm_min : N; tm_sec : N
}.

Fixpoint zeros (k : nat) : string :=
  match k with
  | O => ""
  | S k' => String "0"%char (zeros k')
  end.

(** A decimal number, zero-padded on the left to [width] characters. *)
Definition zero_pad (width : nat) (n : N) : string :=
  let s := pretty n in
  zeros (width - String.length s) +:+ s.

(** One conversion specification. The widgets use [%Y %m %d %H %M %S]; any
    other character after the percent sign is copied with it. *)
Definition directive (c : ascii) (t : struct_time) : string :=
  if bool_decide (c = "Y"%char) then pretty (tm_year t)
  else if bool_decide (c = "m"%char) then zero_pad 2 (tm_mon t)
  else if bool_decide (c = "d"%char) then zero_pad 2 (tm_mday t)
  else if bool_decide (c = "H"%char) then zero_pad 2 (tm_hour t)
  else if bool_decide (c = "M"%char) then zero_pad 2 (tm_min t)
  else if bool_decide (c = "S"%char) then zero_pad 2 (tm_sec t)
  else if bool_decide (c = "%"%char) then "%"
  else String "%"%char (String c "").

Fixpoint format_struct_time (fmt : string) (t : struct_time) : string :=
  match fmt with
  | EmptyString => ""
  | String a rest =>
      if bool_decide (a = "%"%char) then
        match rest with
        | String c rest' => directive c t +:+ format_struct_time rest' t
        | EmptyString => "%"
        end
      else String a (format_struct_time rest t)
  end.

(** Objects with a [strftime(format)] method. *)
Class Strftime (B : Type) := timetuple : B → struct_time.

#[global] Instance datetime_strftime : Strftime datetime :=
  λ d, StructTime (year d) (month d) (day d) (hour d) (minute d) (second d).

(** [time.strftime] formats the date fields as 1900-01-01. *)
#[global] Instance time_strftime : Strftime time :=
  λ t, StructTime 1900 1 1 (t_hour t) (t_minute t) (t_second t).

Definition strftime `{Strftime B} (b : B) (fmt : string) : string :=
  format_struct_time fmt (timetuple b).

(** ** Validators and fields (the host framework's object model) *)

(** A validator instance. [NumberRange], [DateRange] and [TimeRange]
    instances carry the attributes [min] and [max], each [None] or a bound
    of the class's native type. *)
Inductive Validator :=
| DataRequiredV
| NumberRangeV (min max : option Z)
| DateRangeV (min max : option datetime)
| TimeRangeV (min max : option time)
| OtherV (class_name : string).

(** A range validator class: a class whose instances have the attributes
    [min] and [max]. It is indexed by the type of the bounds. These are the
    classes that [min_max] is applied to; [min_max] reads [validator.min],
    which a [DataRequired] instance does not have. *)
Inductive validator_class : Type → Type :=
| NumberRange : validator_class Z
| DateRange : validator_class datetime
| TimeRange : validator_class time.

(** Any validator class, as [isinstance] and [has_validator] take it:
    [DataRequired], or one of the range classes. *)
Inductive any_validator_class :=
| DataRequired
| RangeValidatorClass {B} (c : validator_class B).

Coercion RangeValidatorClass : validator_class >-> any_validator_class.

(** [isinstance(validator, validator_class)]. *)
Definition isinstance (validator : Validator) (validator_class : any_validator_class) : bool :=
  match validator_class with
  | DataRequired =>
      match validator with
      | DataRequiredV => true
      | _ => false
      end
  | RangeValidatorClass c =>
      match c, validator with
      | NumberRange, NumberRangeV _ _ => true
      | DateRange, DateRangeV _ _ => true
      | TimeRange, TimeRangeV _ _ => true
      | _, _ => false
      end
  end.

Arguments isinstance : simpl never.

(** An instance of a range class, seen through its two attributes; [None]
    is Python's [None]. *)
Record RangeValidator (B : Type) := {
  validator_min : option B;
  validator_max : option B
}.
Arguments validator_min {B} _.
Arguments validator_max {B} _.

(** [validator] as an instance of the range class [validator_class], when
    [isinstance(validator, validator_class)]; [None] when it is not an
    instance. The attributes are read of instances only. *)
Definition as_instance {B} (validator : Validator) (validator_class : validator_class B)
    : option (RangeValidator B) :=
  match validator_class in validator_class B return option (RangeValidator B) with
  | NumberRange =>
      match validator with
      | NumberRangeV a b => Some {| validator_min := a; validator_max := b |}
      | _ => None
      end
  | DateRange =>
      match validator with
      | DateRangeV a b => Some {| validator_min := a; validator_max := b |}
      | _ => None
      end
  | TimeRange =>
      match validator with
      | TimeRangeV a b => Some {| validator_min := a; validator_max := b |}
      | _ => None
      end
  end.

(** An entry of a field's choice sequence: a [Choice], a [Choices] group
    (iterating it yields its entries), or an object of any other type. *)
#[warnings="-register-all"]
Inductive choice_entry :=
| Choice (key val label : value)
| Choices (label : value) (choices : list choice_entry)
| Unrecognized.

(** [field.data]: a list (multi-valued selection) or a scalar. *)
Inductive Data :=
| Scalar (v : value)
| DataList (vs : list value).

(** The attributes of a WTForms field that the widgets read.
    [widget_options] is [None] when the field object has no such attribute
    and [Some items] when it has one. *)
Record Field := {
  field_id : string;
  field_name : string;
  field_data : Data;
  field_value : string;
  validators : list Validator;
  iter_choices : list choice_entry;
  widget_options : option (list (string * value))
}.

(** ** min_max and has_validator *)

(** [min_max(field, validator_class)], for a range validator class. The
    test [isinstance(validator, validator_class)] and the reads of
    [validator.min] and [validator.max] that it guards are the match on
    [as_instance]. *)
Definition min_max {B} `{Comparable B} (field : Field)
    (validator_class : validator_class B) : gmap string B :=
  let '(min_values, max_values) :=
    foldl (λ '(min_values, max_values) validator,
      match as_instance validator validator_class with
      | Some validator =>
          (match validator_min validator with
           | Some m => min_values ++ [m]
           | None => min_values
           end,
           match validator_max validator with
           | Some m => max_values ++ [m]
           | None => max_values
           end)
      | None => (min_values, max_values)
      end) ([], []) (validators field) in
  let data : gmap string B := ∅ in
  let data :=
    match min_values with
    | x :: xs => <["min" := py_max x xs]> data
    | [] => data
    end in
  let data :=
    match max_values with
    | x :: xs => <["max" := py_min x xs]> data
    | [] => data
    end in
  data.

Definition has_validator (field : Field) (validator_class : any_validator_class) : bool :=
  existsb (λ validator, isinstance validator validator_class) (validators field).

(** The specification's reading of the bounds that count: filter the
    validators to the instances of the class, keep the bounds that are
    present. *)
Definition instances {B} (validator_class : validator_class B) (field : Field)
    : list (RangeValidator B) :=
  omap (λ v, as_instance v validator_class) (validators field).

Definition present_mins {B} (validator_class : validator_class B) (field : Field) : list B :=
  omap validator_min (instances validator_class field).

Definition present_maxs {B} (validator_class : validator_class B) (field : Field) : list B :=
  omap validator_max (instances validator_class field).

(** [m] is a greatest (least) element of [xs]. *)
Definition is_maximum `{Comparable B} (m : B) (xs : list B) : Prop :=
  m ∈ xs ∧ ∀ x, x ∈ xs → py_lt m x = false.

Definition is_minimum `{Comparable B} (m : B) (xs : list B) : Prop :=
  m ∈ xs ∧ ∀ x, x ∈ xs → py_lt x m = false.

(** *** The order on the bound types *)

Lemma lex_ltb_irrefl (a : list N) : lex_ltb a a = false.
Proof.
  induction a as [|x a IH]; simpl; [done|].
  rewrite IH, N.ltb_irrefl, andb_false_r. done.
Qed.

Lemma lex_ltb_trans (a b c : list N) :
  lex_ltb a b = true → lex_ltb b c = true → lex_ltb a c = true.
Proof.
  revert b c. induction a as [|x a IH]; intros [|y b] [|z c]; simpl; try done.
  rewrite !orb_true_iff, !andb_true_iff, !N.ltb_lt, !N.eqb_eq.
  intros [Hxy|[-> Hab]] [Hyz|[Hyz Hbc]]; subst; eauto with lia.
Qed.

Lemma lex_ltb_total (a b : list N) :
  lex_ltb a b = false → lex_ltb b a = false → a = b.
Proof.
  revert b. induction a as [|x a IH]; intros [|y b]; simpl; try done.
  rewrite !orb_false_iff, !andb_false_iff, !N.ltb_ge, !N.eqb_neq.
  intros [Hyx [Hne|Hab]] [Hxy [Hne'|Hba]]; try lia.
  assert (x = y) as -> by lia. f_equal. by apply IH.
Qed.

#[global] Instance Z_comparable_laws : ComparableLaws Z.
Proof.
  split; unfold py_lt, Z_comparable.
  - intros a. apply Z.ltb_irrefl.
  - intros a b c. rewrite !Z.ltb_lt. lia.
  - intros a b. rewrite !Z.ltb_ge. lia.
Qed.

#[global] Instance datetime_comparable_laws : ComparableLaws datetime.
Proof.
  split; unfold py_lt, datetime_comparable.
  - intros a. apply lex_ltb_irrefl.
  - intros a b c. apply lex_ltb_trans.
  - intros [] [] H1 H2. pose proof (lex_ltb_total _ _ H1 H2) as E.
    unfold datetime_fields in E. simpl in E. congruence.
Qed.

#[global] Instance time_comparable_laws : ComparableLaws time.
Proof.
  split; unfold py_lt, time_comparable.
  - intros a. apply lex_ltb_irrefl.
  - intros a b c. apply lex_ltb_trans.
  - intros [] [] H1 H2. pose proof (lex_ltb_total _ _ H1 H2) as E.
    unfold time_fields in E. simpl in E. congruence.
Qed.

(** *** max and min of a non-empty list *)

Section extrema.
Context {B : Type} `{ComparableLaws B}.

Lemma py_lt_asym (a b : B) : py_lt a b = true → py_lt b a = false.
Proof.
  intros Hab. destruct (py_lt b a) eqn:Hba; [|done].
  rewrite <- (py_lt_irrefl a). symmetry. by apply py_lt_trans with b.
Qed.

(** [a <= b] written as [not (b < a)] is transitive. *)
Lemma py_le_trans (a b c : B) :
  py_lt b a = false → py_lt c b = false → py_lt c a = false.
Proof.
  intros Hab Hbc. destruct (py_lt c a) eqn:Hca; [|done].
  destruct (py_lt a b) eqn:Hlt.
  - rewrite <- Hbc. symmetry. by apply py_lt_trans with a.
  - rewrite (py_lt_total a b Hlt Hab) in Hca. congruence.
Qed.

Lemma py_max_elem (x : B) (xs : list B) : py_max x xs ∈ x :: xs.
Proof.
  revert x. induction xs as [|y xs IH]; intros x; [by left|].
  unfold py_max. simpl. fold (py_max (if py_lt x y then y else x) xs).
  specialize (IH (if py_lt x y then y else x)).
  destruct (py_lt x y); [by right|].
  apply elem_of_cons in IH as [->|IH]; [left | right; right]; done.
Qed.

Lemma py_max_ge_first (x : B) (xs : list B) : py_lt (py_max x xs) x = false.
Proof.
  revert x. induction xs as [|y xs IH]; intros x; [apply py_lt_irrefl|].
  unfold py_max. simpl. fold (py_max (if py_lt x y then y else x) xs).
  destruct (py_lt x y) eqn:Hxy; [|apply IH].
  apply py_le_trans with y; [by apply py_lt_asym | apply IH].
Qed.

Lemma py_max_upper (x : B) (xs : list B) (y : B) :
  y ∈ x :: xs → py_lt (py_max x xs) y = false.
Proof.
  revert x. induction xs as [|z xs IH]; intros x Hy.
  - apply list_elem_of_singleton in Hy as ->. apply py_lt_irrefl.
  - apply elem_of_cons in Hy as [->|Hy]; [apply py_max_ge_first|].
    unfold py_max. simpl. fold (py_max (if py_lt x z then z else x) xs).
    apply elem_of_cons in Hy as [->|Hy].
    + destruct (py_lt x z) eqn:Hxz; [apply py_max_ge_first|].
      apply py_le_trans with x; [done | apply py_max_ge_first].
    + apply IH. by right.
Qed.

Lemma py_min_elem (x : B) (xs : list B) : py_min x xs ∈ x :: xs.
Proof.
  revert x. induction xs as [|y xs IH]; intros x; [by left|].
  unfold py_min. simpl. fold (py_min (if py_lt y x then y else x) xs).
  specialize (IH (if py_lt y x then y else x)).
  destruct (py_lt y x); [by right|].
  apply elem_of_cons in IH as [->|IH]; [left | right; right]; done.
Qed.

Lemma py_min_le_first (x : B) (xs : list B) : py_lt x (py_min x xs) = false.
Proof.
  revert x. induction xs as [|y xs IH]; intros x; [apply py_lt_irrefl|].
  unfold py_min. simpl. fold (py_min (if py_lt y x then y else x) xs).
  destruct (py_lt y x) eqn:Hyx; [|apply IH].
  apply py_le_trans with y; [apply IH | by apply py_lt_asym].
Qed.

Lemma py_min_lower (x : B) (xs : list B) (y : B) :
  y ∈ x :: xs → py_lt y (py_min x xs) = false.
Proof.
  revert x. induction xs as [|z xs IH]; intros x Hy.
  - apply list_elem_of_singleton in Hy as ->. apply py_lt_irrefl.
  - apply elem_of_cons in Hy as [->|Hy]; [apply py_min_le_first|].
    unfold py_min. simpl. fold (py_min (if py_lt z x then z else x) xs).
    apply elem_of_cons in Hy as [->|Hy].
    + destruct (py_lt z x) eqn:Hzx; [apply py_min_le_first|].
      apply py_le_trans with x; [apply py_min_le_first | done].
    + apply IH. by right.
Qed.

Lemma is_maximum_unique (m m' : B) (xs : list B) :
  is_maximum m xs → is_maximum m' xs → m = m'.
Proof. intros [Hm Hub] [Hm' Hub']. apply py_lt_total; auto. Qed.

Lemma is_minimum_unique (m m' : B) (xs : list B) :
  is_minimum m xs → is_minimum m' xs → m = m'.
Proof. intros [Hm Hlb] [Hm' Hlb']. apply py_lt_total; auto. Qed.

Lemma py_max_is_maximum (x : B) (xs : list B) : is_maximum (py_max x xs) (x :: xs).
Proof. split; [apply py_max_elem | intros y; apply py_max_upper]. Qed.

Lemma py_min_is_minimum (x : B) (xs : list B) : is_minimum (py_min x xs) (x :: xs).
Proof. split; [apply py_min_elem | intros y; apply py_min_lower]. Qed.
End extrema.

(** [isinstance] holds exactly of the validators that [as_instance] sees
    as instances. *)
Lemma isinstance_as_instance {B} (v : Validator) (c : validator_class B) :
  isinstance v c = match as_instance v c with Some _ => true | None => false end.
Proof. by destruct c, v. Qed.

(** The loop of [min_max] collects what the specification's filter
    collects. *)
Lemma collect_bounds_app {B} (c : validator_class B) (vs : list Validator)
    (mins maxs : list B) :
  foldl (λ '(min_values, max_values) validator,
    match as_instance validator c with
    | Some validator =>
        (match validator_min validator with
         | Some m => min_values ++ [m]
         | None => min_values
         end,
         match validator_max validator with
         | Some m => max_values ++ [m]
         | None => max_values
         end)
    | None => (min_values, max_values)
    end) (mins, maxs) vs
  = (mins ++ omap validator_min (omap (λ v, as_instance v c) vs),
     maxs ++ omap validator_max (omap (λ v, as_instance v c) vs)).
Proof.
  revert mins maxs. induction vs as [|v vs IH]; intros mins maxs; simpl.
  - by rewrite !app_nil_r.
  - destruct (as_instance v c) as [inst|] eqn:Hv; [|by rewrite IH].
    simpl. destruct (validator_min inst), (validator_max inst); rewrite IH; simpl;
      by rewrite <- ?app_assoc.
Qed.

(** The instances of the class are the validators that pass
    [isinstance]. *)
Lemma instances_filter {B} (c : validator_class B) (vs : list Validator) :
  omap (λ v, as_instance v c) (filter (λ v, isinstance v c = true) vs)
  = omap (λ v, as_instance v c) vs.
Proof.
  induction vs as [|v vs IH]; [done|].
  pose proof (isinstance_as_instance v c) as Hi.
  destruct (as_instance v c) as [inst|] eqn:Hv.
  - rewrite filter_cons_True by done. simpl. rewrite Hv. f_equal. apply IH.
  - rewrite filter_cons_False by (simpl; congruence). simpl. rewrite Hv. apply IH.
Qed.

Lemma min_max_unfold {B} `{Comparable B} (field : Field) (c : validator_class B) :
  min_max field c =
    let data : gmap string B := ∅ in
    let data :=
      match present_mins c field with
      | x :: xs => <["min" := py_max x xs]> data
      | [] => data
      end in
    match present_maxs c field with
    | x :: xs => <["max" := py_min x xs]> data
    | [] => data
    end.
Proof. unfold min_max. by rewrite collect_bounds_app. Qed.

(** The docstring's example: two range validators, [min=3, max=6] and
    [min=4, max=7]. *)
Definition docstring_field : Field := {|
  field_id := "some_integer_field";
  field_name := "some_integer_field";
  field_data := Scalar VNone;
  field_value := "";
  validators := [NumberRangeV (Some 3) (Some 6); NumberRangeV (Some 4) (Some 7)];
  iter_choices := [];
  widget_options := None
|}.

Example min_max_docstring :
  min_max docstring_field NumberRange = {[ "min" := 4; "max" := 6 ]}.
Proof. by vm_compute. Qed.

Example min_max_no_validators :
  min_max {| field_id := "f"; field_name := "f"; field_data := Scalar VNone;
             field_value := ""; validators := [DataRequiredV; NumberRangeV None None];
             iter_choices := []; widget_options := None |} NumberRange = ∅.
Proof. by vm_compute. Qed.

Lemma min_max_lookup_min {B} `{Comparable B} (field : Field) (c : validator_class B) :
  min_max field c !! "min" =
    match present_mins c field with
    | [] => None
    | x :: xs => Some (py_max x xs)
    end.
Proof.
  rewrite min_max_unfold.
  destruct (present_mins c field), (present_maxs c field); by simplify_map_eq.
Qed.

Lemma min_max_lookup_max {B} `{Comparable B} (field : Field) (c : validator_class B) :
  min_max field c !! "max" =
    match present_maxs c field with
    | [] => None
    | x :: xs => Some (py_min x xs)
    end.
Proof.
  rewrite min_max_unfold.
  destruct (present_mins c field), (present_maxs c field); by simplify_map_eq.
Qed.

Lemma min_max_lookup_other {B} `{Comparable B} (field : Field) (c : validator_class B)
    (k : string) :
  k ≠ "min" → k ≠ "max" → min_max field c !! k = None.
Proof.
  intros Hmin Hmax. rewrite min_max_unfold.
  destruct (present_mins c field), (present_maxs c field); by simplify_map_eq.
Qed.

(** C1. For every field and every range validator class, [min_max] returns
    a mapping whose ["min"] entry is the greatest of the [min] bounds that
    are present on the validators of that class and whose ["max"] entry is
    the least of the [max] bounds that are present; an entry is absent
    exactly when no validator of the class carries that bound, and the
    mapping has no other key. [min_max] is a total function: absence of
    bounds yields the smaller mapping, not a failure. *)
Theorem min_max_tightest_bounds {B} `{ComparableLaws B}
    (field : Field) (c : validator_class B) :
  let data := min_max field c in
  (∀ m, data !! "min" = Some m ↔ is_maximum m (present_mins c field)) ∧
  (∀ m, data !! "max" = Some m ↔ is_minimum m (present_maxs c field)) ∧
  (data !! "min" = None ↔ present_mins c field = []) ∧
  (data !! "max" = None ↔ present_maxs c field = []) ∧
  (∀ k, k ≠ "min" → k ≠ "max" → data !! k = None).
Proof.
  simpl. rewrite min_max_lookup_min, min_max_lookup_max.
  split_and!.
  - intros m. destruct (present_mins c field) as [|x xs]; split.
    + done.
    + intros [Hm _]. by apply elem_of_nil in Hm.
    + intros [= <-]. apply py_max_is_maximum.
    + intros Hm. f_equal.
      eapply is_maximum_unique; [apply py_max_is_maximum | exact Hm].
  - intros m. destruct (present_maxs c field) as [|x xs]; split.
    + done.
    + intros [Hm _]. by apply elem_of_nil in Hm.
    + intros [= <-]. apply py_min_is_minimum.
    + intros Hm. f_equal.
      eapply is_minimum_unique; [apply py_min_is_minimum | exact Hm].
  - by destruct (present_mins c field).
  - by destruct (present_maxs c field).
  - intros k. apply min_max_lookup_other.
Qed.

Lemma min_max_tightest_bounds_witness :
  let data := min_max docstring_field NumberRange in
  (∀ m, data !! "min" = Some m ↔ is_maximum m (present_mins NumberRange docstring_field)) ∧
  (∀ m, data !! "max" = Some m ↔ is_minimum m (present_maxs NumberRange docstring_field)) ∧
  (data !! "min" = None ↔ present_mins NumberRange docstring_field = []) ∧
  (data !! "max" = None ↔ present_maxs NumberRange docstring_field = []) ∧
  (∀ k, k ≠ "min" → k ≠ "max" → data !! k = None).
Proof.
  apply (@min_max_tightest_bounds Z Z_comparable Z_comparable_laws
           docstring_field NumberRange).
Defined.

(** ** The store of dicts and the call monad

    [heap] holds the dicts that a call can reach by reference; a location
    is an index into it. A computation threads the store and either
    returns or raises; the store survives a raise. *)
Abbreviation loc := nat.
Abbreviation heap := (list dict).
Definition M (A : Type) : Type := heap → res A * heap.

#[global] Instance M_ret : MRet M := λ A a h, (Ok a, h).
#[global] Instance M_bind : MBind M := λ A B f m h,
  match m h with
  | (Ok a, h') => f a h'
  | (Raise e, h') => (Raise e, h')
  end.

Definition raise {A} (e : exc) : M A := λ h, (Raise e, h).

(** A computation that does not touch the store. *)
Definition lift {A} (r : res A) : M A := λ h, (r, h).

(** The dict at a location. *)
Definition deref (l : loc) (h : heap) : dict := default ∅ (h !! l).

(** A new dict object with the given items. *)
Definition new_dict (d : dict) : M loc := λ h, (Ok (length h), h ++ [d]).

Definition read (l : loc) : M dict := λ h, (Ok (deref l h), h).

Definition modify (l : loc) (f : dict → dict) : M unit := λ h, (Ok (), alter f l h).

(** [d.setdefault(k, v)] on the items of [d]. *)
Definition dict_setdefault (k : string) (v : value) (d : dict) : dict :=
  match d !! k with
  | Some _ => d
  | None => <[k := v]> d
  end.

(** [d.setdefault(k, v)], [d[k] = v], [d.update(other)] (the items of
    [other] win) and [copy(d)] (a new dict with the same items). *)
Definition setdefault (l : loc) (k : string) (v : value) : M unit :=
  modify l (dict_setdefault k v).
Definition setitem (l : loc) (k : string) (v : value) : M unit :=
  modify l (insert k v).
Definition update (l other : loc) : M unit :=
  items ← read other; modify l (λ d, items ∪ d).
Definition copy (l : loc) : M loc :=
  items ← read l; new_dict items.

(** [for x in xs: body(x)]. *)
Fixpoint for_each {A} (xs : list A) (body : A → M unit) : M unit :=
  match xs with
  | [] => mret ()
  | x :: xs' => body x;; for_each xs' body
  end.

(** ** The host framework's renderers *)

(** What the module takes from wtforms: [html_params], the
    attribute serializer, and [Input.__call__(field, **kwargs)], the base
    input-tag renderer, which reads the widget's [input_type]. *)
Class Host := {
  html_params : dict → string;
  Input_call : string → Field → dict → res HTMLString
}.

(** A call [f(name=v, **kwargs)]: a keyword given twice is a [TypeError]. *)
Definition with_keyword (k : string) (v : value) (kwargs : dict) : res dict :=
  match kwargs !! k with
  | Some _ => Raise TypeError
  | None => Ok (<[k := v]> kwargs)
  end.

(** ** HTML5 input widgets *)

(** The subclasses of [BaseDateTimeInput]. *)
Inductive BaseDateTimeInput :=
| TimeInput
| DateTimeLocalInput
| DateTimeInput
| DateInput.

(** The widget classes that derive from [HTML5Input]. *)
Inductive HTML5Input_class :=
| TextInput
| SearchInput
| MonthInput
| WeekInput
| RangeInput
| URLInput
| ColorInput
| TelInput
| EmailInput
| DateTimeWidget (w : BaseDateTimeInput)
| NumberInput.

Definition format (self : BaseDateTimeInput) : string :=
  match self with
  | TimeInput => "%H:%M:%S"
  | DateTimeLocalInput => "%Y-%m-%dT%H:%M:%S"
  | DateTimeInput => "%Y-%m-%dT%H:%M:%SZ"
  | DateInput => "%Y-%m-%d"
  end.

Definition input_type (self : HTML5Input_class) : string :=
  match self with
  | TextInput => "text"
  | SearchInput => "search"
  | MonthInput => "month"
  | WeekInput => "week"
  | RangeInput => "range"
  | URLInput => "url"
  | ColorInput => "color"
  | TelInput => "tel"
  | EmailInput => "email"
  | DateTimeWidget TimeInput => "time"
  | DateTimeWidget DateTimeLocalInput => "datetime-local"
  | DateTimeWidget DateTimeInput => "datetime"
  | DateTimeWidget DateInput => "date"
  | NumberInput => "number"
  end.

(** A widget instance: its class and the dict [self.options]. *)
Record HTML5Input := {
  widget_class : HTML5Input_class;
  options : loc
}.

(** A range validator class together with what the widgets use of its
    bounds: comparison and [strftime]. *)
Record range_class := RangeClass {
  bound : Type;
  validator_class_of : validator_class bound;
  bound_comparable : Comparable bound;
  bound_strftime : Strftime bound
}.

(** The class attribute [range_validator_class]: [DateRange] in
    [BaseDateTimeInput], overridden to [TimeRange] by [TimeInput]. *)
Definition range_validator_class (self : BaseDateTimeInput) : range_class :=
  match self with
  | TimeInput => RangeClass time TimeRange _ _
  | DateTimeLocalInput | DateTimeInput | DateInput => RangeClass datetime DateRange _ _
  end.

(** [BaseDateTimeInput.range_validators]. The source overwrites the two
    entries of the dict that [min_max] returned; here the dict of bounds
    and the dict of their texts are two dicts with the same keys. *)
Definition BaseDateTimeInput_range_validators (self : BaseDateTimeInput)
    (field : Field) : dict :=
  let rc := range_validator_class self in
  let data := @min_max _ (bound_comparable rc) field (validator_class_of rc) in
  let out : dict := ∅ in
  let out :=
    match data !! "min" with
    | Some m => <["min" := VStr (@strftime _ (bound_strftime rc) m (format self))]> out
    | None => out
    end in
  let out :=
    match data !! "max" with
    | Some m => <["max" := VStr (@strftime _ (bound_strftime rc) m (format self))]> out
    | None => out
    end in
  out.

(** [self.range_validators(field)], by the class of [self]. *)
Definition range_validators (self : HTML5Input_class) (field : Field) : dict :=
  match self with
  | DateTimeWidget w => BaseDateTimeInput_range_validators w field
  | NumberInput => VInt <$> min_max field NumberRange
  | _ => ∅
  end.

(** [hasattr(field, 'widget_options')]. *)
Definition hasattr_widget_options (field : Field) : bool :=
  match widget_options field with
  | Some _ => true
  | None => false
  end.

(** [HTML5Input.__call__(self, field, **kwargs)]. [kw] are the keyword
    arguments of the caller; [**kwargs] binds them in a new dict. *)
Definition HTML5Input_call `{Host} (self : HTML5Input) (field : Field) (kw : dict)
    : M HTMLString :=
  kwargs ← new_dict kw;
  (if has_validator field DataRequired
   then setdefault kwargs "required" (VBool true)
   else mret ());;
  for_each (map_to_list (range_validators (widget_class self) field))
    (λ '(key, val), setdefault kwargs key val);;
  (if hasattr_widget_options field
   then raise AttributeError  (* [self.field]: the widget has no such attribute *)
   else mret ());;
  options_copy ← copy (options self);
  update options_copy kwargs;;
  merged ← read options_copy;
  lift (Input_call (input_type (widget_class self)) field merged).

(** ** ReadOnlyWidgetProxy *)

(** A renderer: anything callable as [widget(field, **kwargs)]. *)
Definition renderer := Field → dict → M HTMLString.

Record ReadOnlyWidgetProxy := {
  widget : renderer
}.

Definition ReadOnlyWidgetProxy_call (self : ReadOnlyWidgetProxy) (field : Field)
    (kw : dict) : M HTMLString :=
  kwargs ← new_dict kw;
  setdefault kwargs "readonly" (VBool true);;
  passed ← read kwargs;
  widget self field passed.

(** ** SelectWidget *)

Definition dquote : string := String "034"%char "".
Definition newline : string := String "010"%char "".

(** [sep.join(items)]: the items are all evaluated first, and then each
    must be a string; [None] (here: Python's [None]) is a [TypeError]. *)
Definition py_join (sep : string) (items : list (option HTMLString)) : res HTMLString :=
  strs ← mapM (λ item, match item with
                        | Some s => Ok s
                        | None => Raise TypeError
                        end) items;
  Ok (String.concat sep strs).

(** The dict [options] that [render_option] hands to [html_params]. *)
Definition option_attributes (val : value) (selected : bool) (kwargs : dict) : dict :=
  let val := if is_True val then VStr (text_type val) else val in
  let options := <["value" := val]> kwargs in
  if selected then <["selected" := VBool true]> options else options.

(** [SelectWidget.render_option(value, label, selected, **kwargs)]. *)
Definition render_option `{Host} (val label : value) (selected : bool) (kwargs : dict)
    : HTMLString :=
  "<option " +:+ html_params (option_attributes val selected kwargs) +:+ ">"
    +:+ escape (text_type label) false +:+ "</option>".

(** The body of [SelectWidget.render_optgroup], given the rendering of one
    entry. *)
Definition render_optgroup_with
    (render_choice : choice_entry → res (option HTMLString))
    (label : value) (choices : list choice_entry) : res HTMLString :=
  let label_text := escape (text_type label) false in
  rendered ← mapM render_choice choices;
  body ← py_join newline rendered;
  Ok ("<optgroup label=" +:+ dquote +:+ label_text +:+ dquote +:+ ">"
        +:+ body +:+ "</optgroup>").

(** [SelectWidget.render_choice(field, choice)]. An entry that is neither
    a [Choices] nor a [Choice] matches no branch: the method returns
    [None]. *)
Fixpoint render_choice `{Host} (field : Field) (choice : choice_entry)
    : res (option HTMLString) :=
  match choice with
  | Choices label choices =>
      Some <$> render_optgroup_with (render_choice field) label choices
  | Choice key val label =>
      let selected :=
        match field_data field with
        | DataList vs => py_in val vs
        | Scalar d => py_eq d val
        end in
      Ok (Some (render_option key label selected ∅))
  | Unrecognized => Ok None
  end.

(** [SelectWidget.render_optgroup(field, choices)]. *)
Definition render_optgroup `{Host} (field : Field) (label : value)
    (choices : list choice_entry) : res HTMLString :=
  render_optgroup_with (render_choice field) label choices.

Record SelectWidget := {
  multiple : bool
}.

(** [SelectWidget.__call__(self, field, **kwargs)]. *)
Definition SelectWidget_call `{Host} (self : SelectWidget) (field : Field) (kw : dict)
    : M HTMLString :=
  kwargs ← new_dict kw;
  setdefault kwargs "id" (VStr (field_id field));;
  (if multiple self then setitem kwargs "multiple" (VBool true) else mret ());;
  passed ← read kwargs;
  params ← lift (with_keyword "name" (VStr (field_name field)) passed);
  let html := [Some ("<select " +:+ html_params params +:+ ">")] in
  rendered ← lift (mapM (render_choice field) (iter_choices field));
  let html := html ++ rendered in
  let html := html ++ [Some "</select>"] in
  lift (py_join "" html).

(** ** A reference host: wtforms 1.0

    [html_params] and [Input.__call__] as wtforms 1.0 defines them. The
    theorems below hold for every [Host]; this one runs the examples. *)

Definition key_le (a b : string * value) : Prop := String.leb a.1 b.1 = true.

#[global] Instance key_le_dec : RelDecision key_le.
Proof. intros a b. unfold key_le. apply _. Defined.

(** [k[:-1]]. *)
Fixpoint drop_last (k : string) : string :=
  match k with
  | EmptyString => ""
  | String a EmptyString => ""
  | String a rest => String a (drop_last rest)
  end.

(** One attribute: a bare name for [True], otherwise [name="value"] with
    the value escaped for an attribute. *)
Definition wtforms_attribute (item : string * value) : string :=
  let '(k, v) := item in
  let k := if bool_decide (k ∈ ["class_"; "class__"; "for_"]) then drop_last k else k in
  if is_True v then k
  else k +:+ "=" +:+ dquote +:+ escape (text_type v) true +:+ dquote.

Definition wtforms_html_params (kwargs : dict) : string :=
  String.concat " " (wtforms_attribute <$> merge_sort key_le (map_to_list kwargs)).

Definition wtforms_Input_call (input_type : string) (field : Field) (kwargs : dict)
    : res HTMLString :=
  let kwargs := dict_setdefault "id" (VStr (field_id field)) kwargs in
  let kwargs := dict_setdefault "type" (VStr input_type) kwargs in
  let kwargs :=
    match kwargs !! "value" with
    | Some _ => kwargs
    | None => <["value" := VStr (field_value field)]> kwargs
    end in
  params ← with_keyword "name" (VStr (field_name field)) kwargs;
  Ok ("<input " +:+ wtforms_html_params params +:+ ">").

Definition wtforms_1_0 : Host := {|
  html_params := wtforms_html_params;
  Input_call := wtforms_Input_call
|}.

(** ** Example fields *)

Definition blank_field (name : string) : Field := {|
  field_id := name;
  field_name := name;
  field_data := Scalar VNone;
  field_value := "";
  validators := [];
  iter_choices := [];
  widget_options := None
|}.

Definition with_validators (vs : list Validator) (field : Field) : Field := {|
  field_id := field_id field;
  field_name := field_name field;
  field_data := field_data field;
  field_value := field_value field;
  validators := vs;
  iter_choices := iter_choices field;
  widget_options := widget_options field
|}.

Definition with_choices (d : Data) (cs : list choice_entry) (field : Field) : Field := {|
  field_id := field_id field;
  field_name := field_name field;
  field_data := d;
  field_value := field_value field;
  validators := validators field;
  iter_choices := cs;
  widget_options := widget_options field
|}.

Definition with_widget_options (items : list (string * value)) (field : Field) : Field := {|
  field_id := field_id field;
  field_name := field_name field;
  field_data := field_data field;
  field_value := field_value field;
  validators := validators field;
  iter_choices := iter_choices field;
  widget_options := Some items
|}.

(** A date is the datetime at midnight. *)
Definition date (y m d : N) : datetime := Datetime y m d 0 0 0.

(** A field with [DataRequired] and a date range from 2020-01-01 to
    2020-12-31. *)
Definition date_field : Field :=
  with_validators
    [DataRequiredV; DateRangeV (Some (date 2020 1 1)) (Some (date 2020 12 31))]
    (blank_field "when").

(** A store that holds one dict, the options of the widget below. *)
Definition one_widget_heap (opts : dict) : heap := [opts].

Definition widget_at_0 (c : HTML5Input_class) : HTML5Input :=
  {| widget_class := c; options := 0%nat |}.

(** ** The store: a new dict is a new object *)

Lemma alter_fresh (f : dict → dict) (h : heap) (d : dict) :
  alter f (length h) (h ++ [d]) = h ++ [f d].
Proof.
  rewrite alter_app_r_alt by lia.
  replace (length h - length h)%nat with 0%nat by lia. done.
Qed.

Lemma deref_fresh (h : heap) (d : dict) : deref (length h) (h ++ [d]) = d.
Proof. unfold deref. by rewrite list_lookup_middle. Qed.

Lemma deref_allocated (h : heap) (d : dict) (l : loc) :
  (l < length h)%nat → deref l (h ++ [d]) = deref l h.
Proof. intros Hl. unfold deref. by rewrite lookup_app_l. Qed.

Lemma deref_lookup (h : heap) (l : loc) (d : dict) : h !! l = Some d → deref l h = d.
Proof. intros Hl. unfold deref. by rewrite Hl. Qed.

(** *** setdefault, the loop of setdefaults, and update as unions *)

Lemma dict_setdefault_union (k : string) (v : value) (d : dict) :
  dict_setdefault k v d = d ∪ {[k := v]}.
Proof.
  apply map_eq. intros i. unfold dict_setdefault. rewrite lookup_union.
  destruct (d !! k) eqn:Hk.
  - destruct (decide (k = i)) as [<-|Hne].
    + rewrite Hk. by rewrite lookup_singleton_eq.
    + rewrite lookup_singleton_ne by done. by destruct (d !! i).
  - destruct (decide (k = i)) as [<-|Hne].
    + by rewrite lookup_insert_eq, Hk, lookup_singleton_eq.
    + rewrite lookup_insert_ne, lookup_singleton_ne by done. by destruct (d !! i).
Qed.

Lemma foldl_setdefault (items : list (string * value)) (d : dict) :
  foldl (λ d '(k, v), dict_setdefault k v d) d items = d ∪ list_to_map items.
Proof.
  revert d. induction items as [|[k v] items IH]; intros d; simpl.
  - by rewrite (right_id_L ∅ (∪)).
  - rewrite IH, dict_setdefault_union, <- (assoc_L (∪)).
    by rewrite <- insert_union_singleton_l.
Qed.

Lemma for_each_setdefault (items : list (string * value)) (h : heap) (d : dict) :
  for_each items (λ '(k, v), setdefault (length h) k v) (h ++ [d])
  = (Ok (), h ++ [foldl (λ d '(k, v), dict_setdefault k v d) d items]).
Proof.
  revert d. induction items as [|[k v] items IH]; intros d; simpl; [done|].
  unfold mbind, M_bind, setdefault, modify. rewrite alter_fresh. apply IH.
Qed.

(** ** HTML5Input.__call__ *)

(** The defaults that [__call__] derives from the validators:
    [required=True] for a [DataRequired] validator, and the bounds of
    [range_validators]. *)
Definition derived_defaults (self : HTML5Input_class) (field : Field) : dict :=
  (if has_validator field DataRequired then {["required" := VBool true]} else ∅)
  ∪ range_validators self field.

(** The keyword arguments once the defaults are set, and the attribute
    set that is handed to [Input.__call__]. *)
Definition kwargs_with_defaults (self : HTML5Input_class) (field : Field) (kw : dict) : dict :=
  kw ∪ derived_defaults self field.

Definition merged_attributes (self : HTML5Input_class) (field : Field)
    (opts kw : dict) : dict :=
  kwargs_with_defaults self field kw ∪ opts.

Lemma deref_fresh_below (h : heap) (d d' : dict) :
  deref (length h) ((h ++ [d]) ++ [d']) = d.
Proof.
  rewrite deref_allocated by (rewrite length_app; simpl; lia).
  apply deref_fresh.
Qed.

Lemma kwargs_defaults_eq (self : HTML5Input_class) (field : Field) (kw : dict) :
  foldl (λ d '(k, v), dict_setdefault k v d)
    (if has_validator field DataRequired
     then dict_setdefault "required" (VBool true) kw else kw)
    (map_to_list (range_validators self field))
  = kwargs_with_defaults self field kw.
Proof.
  unfold kwargs_with_defaults, derived_defaults.
  rewrite foldl_setdefault, list_to_map_to_list.
  destruct (has_validator field DataRequired).
  - by rewrite dict_setdefault_union, (assoc_L (∪)).
  - by rewrite (left_id_L ∅ (∪)).
Qed.

(** What one call returns and what it leaves in the store: the dict of
    keyword arguments and, unless the call raised, the copy of
    [self.options] that was updated with them. *)
Lemma HTML5Input_call_run `{Host} (self : HTML5Input) (field : Field) (kw : dict)
    (h : heap) :
  (options self < length h)%nat →
  HTML5Input_call self field kw h =
    let kwargs := kwargs_with_defaults (widget_class self) field kw in
    if hasattr_widget_options field then (Raise AttributeError, h ++ [kwargs])
    else
      let merged := merged_attributes (widget_class self) field (deref (options self) h) kw in
      (Input_call (input_type (widget_class self)) field merged, h ++ [kwargs; merged]).
Proof.
  intros Hopts. unfold HTML5Input_call.
  unfold mbind, M_bind, new_dict.
  assert ((if has_validator field DataRequired
           then setdefault (length h) "required" (VBool true)
           else mret ()) (h ++ [kw])
          = (Ok (), h ++ [if has_validator field DataRequired
                          then dict_setdefault "required" (VBool true) kw else kw])) as ->.
  { destruct (has_validator field DataRequired); [|done].
    unfold setdefault, modify. by rewrite alter_fresh. }
  rewrite for_each_setdefault, kwargs_defaults_eq.
  destruct (hasattr_widget_options field); [done|].
  unfold mret, M_ret, copy, update, read, modify, lift, mbind, M_bind, new_dict.
  rewrite alter_fresh, deref_fresh, deref_fresh_below, deref_allocated by done.
  by rewrite <- (assoc_L (++)).
Qed.

(** The call up to its [hasattr] test does not read [self.options]. *)
Lemma HTML5Input_call_raises `{Host} (self : HTML5Input) (field : Field) (kw : dict)
    (h : heap) :
  hasattr_widget_options field = true →
  HTML5Input_call self field kw h
  = (Raise AttributeError, h ++ [kwargs_with_defaults (widget_class self) field kw]).
Proof.
  intros Hattr. unfold HTML5Input_call.
  unfold mbind, M_bind, new_dict.
  assert ((if has_validator field DataRequired
           then setdefault (length h) "required" (VBool true)
           else mret ()) (h ++ [kw])
          = (Ok (), h ++ [if has_validator field DataRequired
                          then dict_setdefault "required" (VBool true) kw else kw])) as ->.
  { destruct (has_validator field DataRequired); [|done].
    unfold setdefault, modify. by rewrite alter_fresh. }
  rewrite for_each_setdefault, kwargs_defaults_eq.
  by rewrite Hattr.
Qed.

(** [range_validators] only ever has the keys [min] and [max]. *)
Lemma BaseDateTimeInput_range_validators_lookup_other (self : BaseDateTimeInput)
    (field : Field) (k : string) :
  k ≠ "min" → k ≠ "max" → BaseDateTimeInput_range_validators self field !! k = None.
Proof.
  intros Hmin Hmax. unfold BaseDateTimeInput_range_validators. cbv zeta.
  destruct (min_max field _ !! "min"), (min_max field _ !! "max");
    by simplify_map_eq.
Qed.

Lemma range_validators_lookup_other (self : HTML5Input_class) (field : Field)
    (k : string) :
  k ≠ "min" → k ≠ "max" → range_validators self field !! k = None.
Proof.
  intros Hmin Hmax. destruct self; simpl.
  all: try apply lookup_empty.
  - by apply BaseDateTimeInput_range_validators_lookup_other.
  - by rewrite lookup_fmap, min_max_lookup_other.
Qed.

Lemma derived_defaults_required (self : HTML5Input_class) (field : Field) :
  derived_defaults self field !! "required"
  = if has_validator field DataRequired then Some (VBool true) else None.
Proof.
  unfold derived_defaults. rewrite lookup_union.
  rewrite range_validators_lookup_other by done.
  destruct (has_validator field DataRequired); by simplify_map_eq.
Qed.

Lemma derived_defaults_range (self : HTML5Input_class) (field : Field) (k : string) :
  k ≠ "required" →
  derived_defaults self field !! k = range_validators self field !! k.
Proof.
  intros Hk. unfold derived_defaults. rewrite lookup_union.
  destruct (has_validator field DataRequired); simplify_map_eq;
    by destruct (range_validators self field !! k).
Qed.

Lemma merged_attributes_lookup (self : HTML5Input_class) (field : Field)
    (opts kw : dict) (k : string) :
  merged_attributes self field opts kw !! k =
    match kw !! k with
    | Some v => Some v
    | None =>
        match derived_defaults self field !! k with
        | Some v => Some v
        | None => opts !! k
        end
    end.
Proof.
  unfold merged_attributes, kwargs_with_defaults. rewrite !lookup_union.
  destruct (kw !! k), (derived_defaults self field !! k), (opts !! k); done.
Qed.

(** C2. A call of an HTML5Input widget on a field (one without a
    [widget_options] attribute, so that the call returns) hands to the base
    renderer an attribute set [merged] in which, for every key, the
    caller's keyword wins, else the derived default ([required=True] when
    the field has a [DataRequired] validator, the bounds of
    [range_validators]), else the widget's base option. In particular an
    explicit [required=False] stays [False] and is never replaced by
    [True], whatever the validators. *)
Theorem HTML5Input_call_precedence `{Host} (self : HTML5Input) (field : Field)
    (kw : dict) (h : heap) :
  (options self < length h)%nat →
  widget_options field = None →
  let c := widget_class self in
  let opts := deref (options self) h in
  ∃ merged h',
    HTML5Input_call self field kw h = (Input_call (input_type c) field merged, h') ∧
    (∀ k, merged !! k =
       match kw !! k with
       | Some v => Some v
       | None =>
           match derived_defaults c field !! k with
           | Some v => Some v
           | None => opts !! k
           end
       end) ∧
    derived_defaults c field !! "required"
      = (if has_validator field DataRequired then Some (VBool true) else None) ∧
    (∀ k, k ≠ "required" → derived_defaults c field !! k = range_validators c field !! k) ∧
    (kw !! "required" = Some (VBool false) → merged !! "required" = Some (VBool false)).
Proof.
  intros Hopts Hno c opts.
  exists (merged_attributes c field opts kw).
  eexists. split_and!.
  - rewrite HTML5Input_call_run by done. unfold hasattr_widget_options.
    rewrite Hno. reflexivity.
  - apply merged_attributes_lookup.
  - apply derived_defaults_required.
  - apply derived_defaults_range.
  - intros Hreq. by rewrite merged_attributes_lookup, Hreq.
Qed.

Lemma HTML5Input_call_precedence_witness :
  let self := widget_at_0 (DateTimeWidget DateInput) in
  let kw : dict := {["required" := VBool false]} in
  let h := one_widget_heap {["class_" := VStr "date"; "required" := VBool true]} in
  ∃ merged h',
    @HTML5Input_call wtforms_1_0 self date_field kw h
      = (@Input_call wtforms_1_0 "date" date_field merged, h') ∧
    (∀ k, merged !! k =
       match kw !! k with
       | Some v => Some v
       | None =>
           match derived_defaults (DateTimeWidget DateInput) date_field !! k with
           | Some v => Some v
           | None => deref 0%nat h !! k
           end
       end) ∧
    derived_defaults (DateTimeWidget DateInput) date_field !! "required"
      = (if has_validator date_field DataRequired then Some (VBool true) else None) ∧
    (∀ k, k ≠ "required" →
       derived_defaults (DateTimeWidget DateInput) date_field !! k
       = range_validators (DateTimeWidget DateInput) date_field !! k) ∧
    (kw !! "required" = Some (VBool false) → merged !! "required" = Some (VBool false)).
Proof.
  apply (@HTML5Input_call_precedence wtforms_1_0
           (widget_at_0 (DateTimeWidget DateInput)) date_field
           {["required" := VBool false]}
           (one_widget_heap {["class_" := VStr "date"; "required" := VBool true]})).
  - simpl. lia.
  - reflexivity.
Defined.

(** C10. For every field that has a [widget_options] attribute, whatever
    its items, a call of an HTML5Input widget raises [AttributeError]: the
    loop that would merge the items reads [self.field], which no widget has.
    No output is produced, for any host renderer, and the dict
    [self.options] and every other dict in the store are left as they
    were. *)
Theorem HTML5Input_call_widget_options_raises `{Host} (self : HTML5Input)
    (field : Field) (kw : dict) (h : heap) (items : list (string * value)) :
  widget_options field = Some items →
  (HTML5Input_call self field kw h).1 = Raise AttributeError ∧
  ∀ l d, h !! l = Some d → (HTML5Input_call self field kw h).2 !! l = Some d.
Proof.
  intros Hitems.
  rewrite HTML5Input_call_raises by (unfold hasattr_widget_options; by rewrite Hitems).
  split; [done|]. intros l d Hl. simpl.
  rewrite lookup_app_l; [done|]. by eapply lookup_lt_Some.
Qed.

Lemma HTML5Input_call_widget_options_raises_witness :
  let field := with_widget_options [("placeholder", VStr "yyyy-mm-dd")] date_field in
  let h := one_widget_heap ∅ in
  (@HTML5Input_call wtforms_1_0 (widget_at_0 (DateTimeWidget DateInput)) field ∅ h).1
    = Raise AttributeError ∧
  ∀ l d, h !! l = Some d →
    (@HTML5Input_call wtforms_1_0 (widget_at_0 (DateTimeWidget DateInput)) field ∅ h).2 !! l
    = Some d.
Proof.
  apply (@HTML5Input_call_widget_options_raises wtforms_1_0
           (widget_at_0 (DateTimeWidget DateInput))
           (with_widget_options [("placeholder", VStr "yyyy-mm-dd")] date_field)
           ∅ (one_widget_heap ∅) [("placeholder", VStr "yyyy-mm-dd")]).
  reflexivity.
Defined.

(** ** The date and time widgets *)

Lemma BaseDateTimeInput_range_validators_min (self : BaseDateTimeInput) (field : Field) :
  let rc := range_validator_class self in
  BaseDateTimeInput_range_validators self field !! "min"
  = (λ b, VStr (@strftime _ (bound_strftime rc) b (format self)))
      <$> @min_max _ (bound_comparable rc) field (validator_class_of rc) !! "min".
Proof.
  unfold BaseDateTimeInput_range_validators. cbv zeta.
  destruct (min_max field _ !! "min"), (min_max field _ !! "max");
    by simplify_map_eq.
Qed.

Lemma BaseDateTimeInput_range_validators_max (self : BaseDateTimeInput) (field : Field) :
  let rc := range_validator_class self in
  BaseDateTimeInput_range_validators self field !! "max"
  = (λ b, VStr (@strftime _ (bound_strftime rc) b (format self)))
      <$> @min_max _ (bound_comparable rc) field (validator_class_of rc) !! "max".
Proof.
  unfold BaseDateTimeInput_range_validators. cbv zeta.
  destruct (min_max field _ !! "min"), (min_max field _ !! "max");
    by simplify_map_eq.
Qed.

Example strftime_date :
  strftime (date 2020 1 1) (format DateInput) = "2020-01-01".
Proof. by vm_compute. Qed.

Example strftime_datetime_local :
  strftime (date 2020 1 1) (format DateTimeLocalInput) = "2020-01-01T00:00:00".
Proof. by vm_compute. Qed.

Example strftime_datetime_utc :
  strftime (Datetime 2021 11 5 9 7 30) (format DateTimeInput) = "2021-11-05T09:07:30Z".
Proof. by vm_compute. Qed.

Example strftime_time :
  strftime (Time 8 5 0) (format TimeInput) = "08:05:00".
Proof. by vm_compute. Qed.

(** C6. For each of the four date and time widgets and every field, the
    [min] and [max] that [range_validators] derives are the bounds that
    [min_max] finds for the widget's validator class ([TimeRange] for
    [TimeInput], [DateRange] for the others), each passed through
    [strftime] with the widget's own format: [%H:%M:%S] for [TimeInput],
    [%Y-%m-%d] for [DateInput], [%Y-%m-%dT%H:%M:%S] for
    [DateTimeLocalInput] and [%Y-%m-%dT%H:%M:%SZ] for [DateTimeInput]. A
    bound of 2020-01-01 becomes [2020-01-01] in a [DateInput] and
    [2020-01-01T00:00:00] in a [DateTimeLocalInput]. *)
Theorem range_validators_formatted (field : Field) :
  let formatted {B} `{Strftime B} (fmt : string) (bound : option B) : option value :=
    (λ b, VStr (strftime b fmt)) <$> bound in
  (range_validators (DateTimeWidget TimeInput) field !! "min"
     = formatted "%H:%M:%S" (min_max field TimeRange !! "min") ∧
   range_validators (DateTimeWidget TimeInput) field !! "max"
     = formatted "%H:%M:%S" (min_max field TimeRange !! "max")) ∧
  (range_validators (DateTimeWidget DateInput) field !! "min"
     = formatted "%Y-%m-%d" (min_max field DateRange !! "min") ∧
   range_validators (DateTimeWidget DateInput) field !! "max"
     = formatted "%Y-%m-%d" (min_max field DateRange !! "max")) ∧
  (range_validators (DateTimeWidget DateTimeLocalInput) field !! "min"
     = formatted "%Y-%m-%dT%H:%M:%S" (min_max field DateRange !! "min") ∧
   range_validators (DateTimeWidget DateTimeLocalInput) field !! "max"
     = formatted "%Y-%m-%dT%H:%M:%S" (min_max field DateRange !! "max")) ∧
  (range_validators (DateTimeWidget DateTimeInput) field !! "min"
     = formatted "%Y-%m-%dT%H:%M:%SZ" (min_max field DateRange !! "min") ∧
   range_validators (DateTimeWidget DateTimeInput) field !! "max"
     = formatted "%Y-%m-%dT%H:%M:%SZ" (min_max field DateRange !! "max")) ∧
  range_validators (DateTimeWidget DateInput)
    (with_validators [DateRangeV (Some (date 2020 1 1)) None] field) !! "min"
    = Some (VStr "2020-01-01") ∧
  range_validators (DateTimeWidget DateTimeLocalInput)
    (with_validators [DateRangeV (Some (date 2020 1 1)) None] field) !! "min"
    = Some (VStr "2020-01-01T00:00:00").
Proof.
  cbv zeta. unfold range_validators.
  rewrite !BaseDateTimeInput_range_validators_min.
  rewrite !BaseDateTimeInput_range_validators_max.
  split_and!; reflexivity.
Qed.

(** ** ReadOnlyWidgetProxy.__call__ *)

Lemma ReadOnlyWidgetProxy_call_run (self : ReadOnlyWidgetProxy) (field : Field)
    (kw : dict) (h : heap) :
  ReadOnlyWidgetProxy_call self field kw h
  = let passed := dict_setdefault "readonly" (VBool true) kw in
    widget self field passed (h ++ [passed]).
Proof.
  unfold ReadOnlyWidgetProxy_call, mbind, M_bind, new_dict, setdefault, modify, read.
  by rewrite alter_fresh, deref_fresh.
Qed.

(** A renderer that shows the keyword arguments it was called with. *)
Definition echo_renderer : renderer :=
  λ field kwargs, lift (Ok (wtforms_html_params kwargs)).

Example readonly_default :
  (ReadOnlyWidgetProxy_call {| widget := echo_renderer |} (blank_field "f")
     {["size" := VInt 3]} []).1
  = Ok ("readonly size=" +:+ dquote +:+ "3" +:+ dquote).
Proof. by vm_compute. Qed.

Example readonly_explicit_false :
  (ReadOnlyWidgetProxy_call {| widget := echo_renderer |} (blank_field "f")
     {["readonly" := VBool false]} []).1
  = Ok ("readonly=" +:+ dquote +:+ "False" +:+ dquote).
Proof. by vm_compute. Qed.

(** C8. For every wrapped renderer, every field and every set of keyword
    arguments, [ReadOnlyWidgetProxy.__call__] calls the wrapped renderer
    once, on the same field, with keyword arguments [passed] in which
    [readonly] is the caller's value when the caller gave one (also when it
    is [False]) and [True] otherwise, and every other key is as the caller
    gave it. *)
Theorem ReadOnlyWidgetProxy_call_readonly_default (self : ReadOnlyWidgetProxy)
    (field : Field) (kw : dict) (h : heap) :
  ∃ passed h',
    ReadOnlyWidgetProxy_call self field kw h = widget self field passed h' ∧
    passed !! "readonly" = Some (default (VBool true) (kw !! "readonly")) ∧
    (∀ k, k ≠ "readonly" → passed !! k = kw !! k) ∧
    (∀ l d, h !! l = Some d → h' !! l = Some d).
Proof.
  exists (dict_setdefault "readonly" (VBool true) kw), (h ++ [dict_setdefault "readonly" (VBool true) kw]).
  split_and!.
  - apply ReadOnlyWidgetProxy_call_run.
  - unfold dict_setdefault.
    destruct (kw !! "readonly") eqn:Hr; simpl; [done|]. by rewrite lookup_insert_eq.
  - intros k Hk. unfold dict_setdefault.
    destruct (kw !! "readonly"); [done|]. by rewrite lookup_insert_ne.
  - intros l d Hl. rewrite lookup_app_l; [done|]. by eapply lookup_lt_Some.
Qed.

(** ** Lists of results *)

Lemma mapM_res_cons {A B} (f : A → res B) (x : A) (l : list A) :
  mapM f (x :: l) = y ← f x; k ← mapM f l; mret (y :: k).
Proof. reflexivity. Qed.

Lemma mapM_res_Ok {A B} (f : A → res B) (l : list A) (ys : list B) :
  mapM f l = Ok ys ↔ Forall2 (λ x y, f x = Ok y) l ys.
Proof.
  revert ys. induction l as [|x l IH]; intros ys.
  - split.
    + intros [= <-]. constructor.
    + intros Hall. by inversion Hall.
  - rewrite mapM_res_cons. split.
    + destruct (f x) as [y|e] eqn:Hx; [|done]. simpl.
      destruct (mapM f l) as [k|e] eqn:Hl; [|done]. simpl.
      intros [= <-]. constructor; [done|]. by apply IH.
    + intros Hall. inversion Hall as [|? y ? k Hx Hl]; subst.
      rewrite Hx. simpl. apply IH in Hl. by rewrite Hl.
Qed.

Lemma mapM_res_Raise {A B} (f : A → res B) (l : list A) (e : exc) :
  mapM f l = Raise e → ∃ x, x ∈ l ∧ f x = Raise e.
Proof.
  induction l as [|x l IH]; [done|]. rewrite mapM_res_cons.
  destruct (f x) as [y|e'] eqn:Hx; simpl.
  - destruct (mapM f l) as [k|e'] eqn:Hl; [done|]. simpl.
    intros [= ->]. destruct IH as (x' & Hin & Hx'); [done|].
    exists x'. split; [by right | done].
  - intros [= ->]. exists x. split; [by left | done].
Qed.

Lemma mapM_res_total {A B} (f : A → res B) (l : list A) :
  Forall (λ x, ∃ y, f x = Ok y) l → ∃ ys, mapM f l = Ok ys.
Proof.
  induction 1 as [|x l [y Hx] _ [ys Hl]]; [by exists []|].
  exists (y :: ys). rewrite mapM_res_cons, Hx. simpl. by rewrite Hl.
Qed.

(** *** join *)

Lemma py_join_strings (sep : string) (strs : list HTMLString) :
  py_join sep (Some <$> strs) = Ok (String.concat sep strs).
Proof.
  unfold py_join.
  assert (mapM (λ item : option HTMLString,
                  match item with Some s => Ok s | None => Raise TypeError end)
            (Some <$> strs) = Ok strs) as ->; [|done].
  apply mapM_res_Ok. induction strs; constructor; done.
Qed.

Lemma py_join_None (sep : string) (items : list (option HTMLString)) :
  None ∈ items → py_join sep items = Raise TypeError.
Proof.
  intros Hin. unfold py_join.
  destruct (mapM _ items) as [strs|e] eqn:Hm; simpl.
  - apply mapM_res_Ok in Hm.
    apply list_elem_of_lookup in Hin as [i Hi].
    destruct (Forall2_lookup_l _ _ _ _ _ Hm Hi) as (y & _ & Hy). done.
  - apply mapM_res_Raise in Hm as (x & _ & Hx). destruct x; congruence.
Qed.

Lemma py_join_Raise (sep : string) (items : list (option HTMLString)) (e : exc) :
  py_join sep items = Raise e → e = TypeError.
Proof.
  unfold py_join. destruct (mapM _ items) as [strs|e'] eqn:Hm; simpl; [done|].
  intros [= <-]. apply mapM_res_Raise in Hm as (x & _ & Hx).
  destruct x; congruence.
Qed.

Lemma py_join_Ok (sep : string) (items : list (option HTMLString)) (s : HTMLString) :
  py_join sep items = Ok s →
  ∃ strs, items = Some <$> strs ∧ s = String.concat sep strs.
Proof.
  unfold py_join. destruct (mapM _ items) as [strs|e'] eqn:Hm; simpl; [|done].
  intros [= <-]. exists strs. split; [|done].
  apply mapM_res_Ok in Hm. induction Hm as [|x y l k Hxy _ IH]; [done|].
  destruct x; by simplify_eq.
Qed.

(** ** Induction on choice entries, groups included *)

Definition choice_entry_nested_ind (P : choice_entry → Prop)
    (HChoice : ∀ key val label, P (Choice key val label))
    (HChoices : ∀ label choices, Forall P choices → P (Choices label choices))
    (HUnrecognized : P Unrecognized) : ∀ c, P c :=
  fix go (c : choice_entry) : P c :=
    match c with
    | Choice key val label => HChoice key val label
    | Choices label choices =>
        HChoices label choices
          ((fix go_list (cs : list choice_entry) : Forall P cs :=
              match cs with
              | [] => @List.Forall_nil _ P
              | c' :: cs' => @List.Forall_cons _ P c' cs' (go c') (go_list cs')
              end) choices)
    | Unrecognized => HUnrecognized
    end.

(** Every entry is a [Choice] or a [Choices] group, all the way down. *)
Fixpoint recognized (c : choice_entry) : bool :=
  match c with
  | Choice _ _ _ => true
  | Choices _ choices => forallb recognized choices
  | Unrecognized => false
  end.

(** [selected] as [render_choice] computes it. *)
Definition is_selected (field : Field) (val : value) : bool :=
  match field_data field with
  | DataList vs => py_in val vs
  | Scalar d => py_eq d val
  end.

Lemma render_choice_Choice `{Host} (field : Field) (key val label : value) :
  render_choice field (Choice key val label)
  = Ok (Some (render_option key label (is_selected field val) ∅)).
Proof. reflexivity. Qed.

Lemma render_choice_Choices `{Host} (field : Field) (label : value)
    (choices : list choice_entry) :
  render_choice field (Choices label choices)
  = Some <$> render_optgroup field label choices.
Proof. reflexivity. Qed.

Lemma render_choice_Unrecognized `{Host} (field : Field) :
  render_choice field Unrecognized = Ok None.
Proof. reflexivity. Qed.

Lemma render_optgroup_Raise `{Host} (field : Field) (label : value)
    (choices : list choice_entry) (e : exc) :
  Forall (λ c, ∀ e, render_choice field c = Raise e → e = TypeError) choices →
  render_optgroup field label choices = Raise e → e = TypeError.
Proof.
  intros Hall. unfold render_optgroup, render_optgroup_with.
  destruct (mapM _ choices) as [rendered|e'] eqn:Hm; simpl.
  - destruct (py_join newline rendered) as [body|e'] eqn:Hj; simpl; [done|].
    intros [= <-]. by eapply py_join_Raise.
  - intros [= <-]. apply mapM_res_Raise in Hm as (c & Hin & Hc).
    rewrite Forall_forall in Hall. by eapply Hall.
Qed.

(** The only failure of rendering an entry is the [TypeError] of a join. *)
Lemma render_choice_Raise `{Host} (field : Field) (c : choice_entry) (e : exc) :
  render_choice field c = Raise e → e = TypeError.
Proof.
  revert e. induction c as [key val label|label choices IH|]
    using choice_entry_nested_ind; intros e.
  - by rewrite render_choice_Choice.
  - rewrite render_choice_Choices.
    destruct (render_optgroup field label choices) as [s|e'] eqn:Hg; [done|].
    intros [= <-]. by eapply render_optgroup_Raise.
  - by rewrite render_choice_Unrecognized.
Qed.

(** Recognized entries render to markup. *)
Lemma render_choice_recognized `{Host} (field : Field) (c : choice_entry) :
  recognized c = true → ∃ s, render_choice field c = Ok (Some s).
Proof.
  induction c as [key val label|label choices IH|]
    using choice_entry_nested_ind; intros Hrec.
  - rewrite render_choice_Choice. eauto.
  - rewrite render_choice_Choices. unfold render_optgroup, render_optgroup_with.
    simpl in Hrec. rewrite forallb_forall in Hrec.
    assert (∃ strs : list HTMLString,
              mapM (render_choice field) choices = Ok (Some <$> strs))
      as [strs ->].
    { clear label. induction IH as [|c cs Hc _ IHcs]; [by exists []|].
      destruct Hc as [s Hs]; [apply Hrec; by left|].
      destruct IHcs as [strs Hstrs]; [intros c' Hc'; apply Hrec; by right|].
      exists (s :: strs). by rewrite mapM_res_cons, Hs, Hstrs. }
    simpl. rewrite py_join_strings. simpl. eauto.
  - done.
Qed.

(** ** escape *)

(** [c in s]. *)
Fixpoint occurs (c : ascii) (s : string) : bool :=
  match s with
  | EmptyString => false
  | String a s' => bool_decide (a = c) || occurs c s'
  end.

(** What [escape] does to one character. *)
Definition escape_char (quote : bool) (a : ascii) : string :=
  if bool_decide (a = "&"%char) then "&amp;"
  else if bool_decide (a = "<"%char) then "&lt;"
  else if bool_decide (a = ">"%char) then "&gt;"
  else if quote && bool_decide (a = "034"%char) then "&quot;"
  else String a "".

Fixpoint string_flat_map (f : ascii → string) (s : string) : string :=
  match s with
  | EmptyString => ""
  | String a s' => f a +:+ string_flat_map f s'
  end.

Lemma occurs_app (c : ascii) (s t : string) :
  occurs c (s +:+ t) = occurs c s || occurs c t.
Proof.
  induction s as [|a s IH]; [done|].
  change (String a s +:+ t) with (String a (s +:+ t)).
  simpl. by rewrite IH, orb_assoc.
Qed.

Lemma occurs_replace_same (c : ascii) (r s : string) :
  occurs c r = false → occurs c (replace_char c r s) = false.
Proof.
  intros Hr. induction s as [|a s IH]; simpl; [done|].
  case_bool_decide as Ha; simpl.
  - by rewrite occurs_app, Hr, IH.
  - by rewrite bool_decide_eq_false_2, IH.
Qed.

Lemma occurs_replace_other (c c' : ascii) (r s : string) :
  occurs c r = false → occurs c s = false → occurs c (replace_char c' r s) = false.
Proof.
  intros Hr. induction s as [|a s IH]; simpl; [done|].
  intros [Ha Hs]%orb_false_iff.
  destruct (bool_decide (a = c')); simpl.
  - by rewrite occurs_app, Hr, IH.
  - by rewrite Ha, IH.
Qed.

Lemma escape_no_lt (s : string) (quote : bool) :
  occurs "<"%char (escape s quote) = false.
Proof.
  unfold escape.
  assert (occurs "<"%char
            (replace_char ">"%char "&gt;"
               (replace_char "<"%char "&lt;" (replace_char "&"%char "&amp;" s)))
          = false) as Hlt.
  { apply occurs_replace_other; [done|]. by apply occurs_replace_same. }
  destruct quote; [|done]. by apply occurs_replace_other.
Qed.

Lemma escape_no_gt (s : string) (quote : bool) :
  occurs ">"%char (escape s quote) = false.
Proof.
  unfold escape.
  assert (occurs ">"%char
            (replace_char ">"%char "&gt;"
               (replace_char "<"%char "&lt;" (replace_char "&"%char "&amp;" s)))
          = false) as Hgt.
  { by apply occurs_replace_same. }
  destruct quote; [|done]. by apply occurs_replace_other.
Qed.

Lemma string_app_cons (a : ascii) (s t : string) :
  String a s +:+ t = String a (s +:+ t).
Proof. reflexivity. Qed.

Lemma string_app_assoc (s t u : string) : (s +:+ t) +:+ u = s +:+ (t +:+ u).
Proof.
  induction s as [|a s IH]; [done|]. by rewrite !string_app_cons, IH.
Qed.

Lemma replace_char_app (c : ascii) (r s t : string) :
  replace_char c r (s +:+ t) = replace_char c r s +:+ replace_char c r t.
Proof.
  induction s as [|a s IH]; [done|].
  rewrite string_app_cons. simpl.
  destruct (bool_decide (a = c)); rewrite IH; [|done].
  by rewrite string_app_assoc.
Qed.

Lemma escape_app (s t : string) (quote : bool) :
  escape (s +:+ t) quote = escape s quote +:+ escape t quote.
Proof.
  unfold escape. cbv zeta. rewrite !replace_char_app. by destruct quote.
Qed.

(** [escape] works character by character: the three (or four) special
    characters become entities and every other character is kept. *)
Lemma escape_per_char (s : string) (quote : bool) :
  escape s quote = string_flat_map (escape_char quote) s.
Proof.
  induction s as [|a s IH]; [by destruct quote|].
  change (String a s) with (String a "" +:+ s).
  rewrite escape_app, IH. simpl. f_equal.
  unfold escape, escape_char. simpl.
  repeat (case_bool_decide; subst; simpl; try done);
    destruct quote; simpl; try done;
    repeat (case_bool_decide; subst; simpl; try done).
Qed.

(** ** SelectWidget.__call__ *)

(** The keyword arguments after the [id] default and the forced
    [multiple]. *)
Definition select_kwargs (self : SelectWidget) (field : Field) (kw : dict) : dict :=
  let kwargs := dict_setdefault "id" (VStr (field_id field)) kw in
  if multiple self then <["multiple" := VBool true]> kwargs else kwargs.

(** What the call returns, as a function of the widget, the field and the
    caller's keywords. *)
Definition select_markup `{Host} (self : SelectWidget) (field : Field) (kw : dict)
    : res HTMLString :=
  params ← with_keyword "name" (VStr (field_name field)) (select_kwargs self field kw);
  rendered ← mapM (render_choice field) (iter_choices field);
  py_join "" (([Some ("<select " +:+ html_params params +:+ ">")] ++ rendered)
                ++ [Some "</select>"]).

Lemma SelectWidget_call_run `{Host} (self : SelectWidget) (field : Field) (kw : dict)
    (h : heap) :
  SelectWidget_call self field kw h
  = (select_markup self field kw, h ++ [select_kwargs self field kw]).
Proof.
  unfold SelectWidget_call, select_markup, select_kwargs.
  unfold mbind at 1 2 3 4 5 6, M_bind, new_dict, setdefault, modify, read, lift.
  rewrite alter_fresh.
  destruct (multiple self).
  - unfold setitem, modify. rewrite alter_fresh, deref_fresh.
    destruct (with_keyword _ _ _) as [params|e]; simpl; [|done].
    destruct (mapM _ _) as [rendered|e]; simpl; [|done].
    by destruct (py_join _ _).
  - unfold mret, M_ret. rewrite deref_fresh.
    destruct (with_keyword _ _ _) as [params|e]; simpl; [|done].
    destruct (mapM _ _) as [rendered|e]; simpl; [|done].
    by destruct (py_join _ _).
Qed.

(** Single quotes for double quotes, to write expected markup. *)
Definition q (s : string) : string := replace_char "'"%char dquote s.

Definition abc_choices : list choice_entry :=
  [Choice (VStr "a") (VStr "a") (VStr "A");
   Choice (VStr "b") (VStr "b") (VStr "B");
   Choice (VStr "c") (VStr "c") (VStr "C")].

Definition single_select : SelectWidget := {| multiple := false |}.
Definition multiple_select : SelectWidget := {| multiple := true |}.

Example select_scalar_b :
  (@SelectWidget_call wtforms_1_0 single_select
     (with_choices (Scalar (VStr "b")) abc_choices (blank_field "f")) ∅ []).1
  = Ok (q ("<select id='f' name='f'><option value='a'>A</option>"
           +:+ "<option selected value='b'>B</option>"
           +:+ "<option value='c'>C</option></select>")).
Proof. by vm_compute. Qed.

Example select_multiple_a_c :
  (@SelectWidget_call wtforms_1_0 multiple_select
     (with_choices (DataList [VStr "a"; VStr "c"]) abc_choices (blank_field "f")) ∅ []).1
  = Ok (q ("<select id='f' multiple name='f'><option selected value='a'>A</option>"
           +:+ "<option value='b'>B</option>"
           +:+ "<option selected value='c'>C</option></select>")).
Proof. by vm_compute. Qed.

Example select_optgroup_escaped :
  (@SelectWidget_call wtforms_1_0 single_select
     (with_choices (Scalar VNone)
        [Choices (VStr "<script>") [Choice (VStr "a") (VStr "a") (VStr "x<y & z")]]
        (blank_field "f")) ∅ []).1
  = Ok (q ("<select id='f' name='f'><optgroup label='&lt;script&gt;'>"
           +:+ "<option value='a'>x&lt;y &amp; z</option></optgroup></select>")).
Proof. by vm_compute. Qed.

(** A second [name] keyword is a [TypeError] of the call to [html_params]. *)
Example select_name_keyword :
  (@SelectWidget_call wtforms_1_0 single_select
     (with_choices (Scalar VNone) abc_choices (blank_field "f"))
     {["name" := VStr "g"]} []).1
  = Raise TypeError.
Proof. by vm_compute. Qed.

(** ** Entries that are neither a Choice nor a Choices group *)

(** A group that holds an unrecognized entry does not render. *)
Lemma render_optgroup_Unrecognized `{Host} (field : Field) (label : value)
    (choices : list choice_entry) :
  Unrecognized ∈ choices → render_optgroup field label choices = Raise TypeError.
Proof.
  intros Hin. unfold render_optgroup, render_optgroup_with.
  destruct (mapM _ choices) as [rendered|e] eqn:Hm; simpl.
  - rewrite py_join_None; [done|].
    apply mapM_res_Ok in Hm. apply list_elem_of_lookup in Hin as [i Hi].
    destruct (Forall2_lookup_l _ _ _ _ _ Hm Hi) as (y & Hy & Hr).
    rewrite render_choice_Unrecognized in Hr. simplify_eq.
    apply list_elem_of_lookup. eauto.
  - apply mapM_res_Raise in Hm as (c & _ & Hc).
    apply render_choice_Raise in Hc. by subst.
Qed.

Lemma select_markup_Unrecognized `{Host} (self : SelectWidget) (field : Field)
    (kw : dict) :
  Unrecognized ∈ iter_choices field → select_markup self field kw = Raise TypeError.
Proof.
  intros Hin. unfold select_markup.
  destruct (with_keyword _ _ _) as [params|e] eqn:Hw; simpl.
  - destruct (mapM _ _) as [rendered|e] eqn:Hm; simpl.
    + apply py_join_None.
      apply mapM_res_Ok in Hm. apply list_elem_of_lookup in Hin as [i Hi].
      destruct (Forall2_lookup_l _ _ _ _ _ Hm Hi) as (y & Hy & Hr).
      rewrite render_choice_Unrecognized in Hr. simplify_eq.
      apply elem_of_cons. right. apply elem_of_app. left.
      apply list_elem_of_lookup. eauto.
    + apply mapM_res_Raise in Hm as (c & _ & Hc).
      apply render_choice_Raise in Hc. by subst.
  - unfold with_keyword in Hw. destruct (_ !! "name"); by simplify_eq.
Qed.

Lemma select_markup_recognized `{Host} (self : SelectWidget) (field : Field)
    (kw : dict) :
  forallb recognized (iter_choices field) = true →
  select_kwargs self field kw !! "name" = None →
  ∃ s, select_markup self field kw = Ok s.
Proof.
  intros Hrec Hname. unfold select_markup, with_keyword. rewrite Hname. simpl.
  rewrite forallb_forall in Hrec.
  assert (∃ strs : list HTMLString,
            mapM (render_choice field) (iter_choices field) = Ok (Some <$> strs))
    as [strs ->].
  { induction (iter_choices field) as [|c cs IH]; [by exists []|].
    destruct (render_choice_recognized field c) as [s Hs]; [apply Hrec; by left|].
    destruct IH as [strs Hstrs]; [intros c' Hc'; apply Hrec; by right|].
    exists (s :: strs). by rewrite mapM_res_cons, Hs, Hstrs. }
  simpl. eexists.
  etrans; [|apply (py_join_strings ""
                     (("<select " +:+ html_params
                         (<["name":=VStr (field_name field)]> (select_kwargs self field kw))
                         +:+ ">") :: strs ++ ["</select>"]))].
  f_equal. simpl. by rewrite fmap_app.
Qed.

Lemma select_kwargs_name (self : SelectWidget) (field : Field) (kw : dict) :
  select_kwargs self field kw !! "name" = kw !! "name".
Proof.
  unfold select_kwargs, dict_setdefault.
  destruct (multiple self), (kw !! "id"); by simplify_map_eq.
Qed.

(** A field whose second entry is of an unknown type, and the same field
    without that entry. *)
Definition field_with_unrecognized : Field :=
  with_choices (Scalar (VStr "b"))
    [Choice (VStr "a") (VStr "a") (VStr "A"); Unrecognized;
     Choice (VStr "b") (VStr "b") (VStr "B")]
    (blank_field "f").

Definition field_without_unrecognized : Field :=
  with_choices (Scalar (VStr "b"))
    [Choice (VStr "a") (VStr "a") (VStr "A");
     Choice (VStr "b") (VStr "b") (VStr "B")]
    (blank_field "f").

(** C3, as stated, fails: with an entry that is neither a [Choice] nor a
    [Choices] between two choices, the select is not the markup of the
    remaining entries; the call raises [TypeError]. *)
Lemma unrecognized_entry_not_skipped :
  (@SelectWidget_call wtforms_1_0 single_select field_with_unrecognized ∅ []).1
    = Raise TypeError ∧
  (@SelectWidget_call wtforms_1_0 single_select field_without_unrecognized ∅ []).1
    = Ok (q ("<select id='f' name='f'><option value='a'>A</option>"
             +:+ "<option selected value='b'>B</option></select>")).
Proof. split; by vm_compute. Qed.

(** C3, amended. For an entry that is neither a [Choice] nor a [Choices]
    group, [render_choice] produces no markup and does not raise: it
    returns [None]. The select is then not rendered: when the choice
    sequence of the field contains such an entry, [SelectWidget.__call__]
    raises [TypeError] (the join of the fragments meets [None]), and so
    does [render_optgroup] for a group that contains one. When every
    entry, inside groups too, is a [Choice] or a [Choices] and the caller
    passes no [name] keyword, the call returns markup. *)
Theorem unrecognized_entry_returns_None_and_join_fails `{Host}
    (self : SelectWidget) (field : Field) (kw : dict) (h : heap) :
  render_choice field Unrecognized = Ok None ∧
  (Unrecognized ∈ iter_choices field →
     (SelectWidget_call self field kw h).1 = Raise TypeError) ∧
  (∀ label choices, Unrecognized ∈ choices →
     render_optgroup field label choices = Raise TypeError) ∧
  (forallb recognized (iter_choices field) = true → kw !! "name" = None →
     ∃ s, (SelectWidget_call self field kw h).1 = Ok s).
Proof.
  rewrite SelectWidget_call_run. simpl. split_and!.
  - reflexivity.
  - apply select_markup_Unrecognized.
  - intros label choices. apply render_optgroup_Unrecognized.
  - intros Hrec Hname. apply select_markup_recognized; [done|].
    by rewrite select_kwargs_name.
Qed.

Lemma unrecognized_entry_returns_None_and_join_fails_witness :
  (@SelectWidget_call wtforms_1_0 single_select field_with_unrecognized ∅ []).1
    = Raise TypeError ∧
  ∃ s, (@SelectWidget_call wtforms_1_0 single_select field_without_unrecognized ∅ []).1
       = Ok s.
Proof.
  split.
  - apply (@unrecognized_entry_returns_None_and_join_fails wtforms_1_0
             single_select field_with_unrecognized ∅ []).
    vm_compute. right. left.
  - apply (@unrecognized_entry_returns_None_and_join_fails wtforms_1_0
             single_select field_without_unrecognized ∅ []); reflexivity.
Defined.

(** ** Options: value, selected, label *)

Lemma option_attributes_value (val : value) (selected : bool) :
  option_attributes val selected ∅ !! "value"
  = Some (if is_True val then VStr "True" else val).
Proof.
  unfold option_attributes.
  destruct selected, (is_True val) eqn:Ht; simplify_map_eq; try done.
  - by destruct val as [|[]| |].
  - by destruct val as [|[]| |].
Qed.

Lemma option_attributes_selected (val : value) (selected : bool) :
  option_attributes val selected ∅ !! "selected"
  = if selected then Some (VBool true) else None.
Proof. unfold option_attributes. destruct selected; by simplify_map_eq. Qed.

(** A choice whose key, the submitted form value, differs from its value,
    the object that is compared with the field's data. *)
Definition keyed_choice : choice_entry := Choice (VStr "k") (VStr "v") (VStr "L").

(** C4, as stated, fails: the [value] attribute of the option is the
    choice's [key], not its [value]. *)
Lemma option_value_is_not_choice_value :
  @render_choice wtforms_1_0 (blank_field "f") keyed_choice
    = Ok (Some (q "<option value='k'>L</option>")) ∧
  @render_choice wtforms_1_0 (blank_field "f") keyed_choice
    ≠ Ok (Some (q "<option value='v'>L</option>")).
Proof. split; by vm_compute. Qed.

(** C4, amended. For every rendered single choice, the option is
    [render_option] of the choice's [key] and [label] with no further
    keywords, so the [value] attribute handed to [html_params] is the
    choice's [key] (not its [value], which only decides [selected]), except
    that a key that is the boolean [True] is replaced by its text, the
    string [True]. *)
Theorem option_value_attribute_is_key `{Host} (field : Field) (key val label : value) :
  ∃ attrs,
    render_choice field (Choice key val label)
      = Ok (Some ("<option " +:+ html_params attrs +:+ ">"
                    +:+ escape (text_type label) false +:+ "</option>")) ∧
    attrs !! "value" = Some (if is_True key then VStr (text_type (VBool true)) else key) ∧
    (∀ k, k ≠ "value" → k ≠ "selected" → attrs !! k = None).
Proof.
  exists (option_attributes key (is_selected field val) ∅). split_and!.
  - apply render_choice_Choice.
  - apply option_attributes_value.
  - intros k Hv Hs. unfold option_attributes.
    destruct (is_selected field val); by simplify_map_eq.
Qed.

(** The specification's reading of [selected]: the field's data equals the
    choice's value, or, for a list, the value is a member of it. Equality
    is Python's [==]. *)
Definition data_selects (d : Data) (val : value) : Prop :=
  match d with
  | DataList vs => ∃ e, e ∈ vs ∧ py_eq e val = true
  | Scalar d => py_eq d val = true
  end.

Lemma is_selected_spec (field : Field) (val : value) :
  is_selected field val = true ↔ data_selects (field_data field) val.
Proof.
  unfold is_selected, data_selects, py_in.
  destruct (field_data field) as [d|vs]; [done|].
  rewrite existsb_exists. setoid_rewrite list_elem_of_In. done.
Qed.

(** C5. For every field and choice, the attributes of the rendered option
    have [selected] (as [True]) exactly when the field's data equals the
    choice's value, or, when the field's data is a list, exactly when the
    choice's value is a member of the list; otherwise the option has no
    [selected] attribute at all. *)
Theorem option_selected_iff_data_selects `{Host} (field : Field) (key val label : value) :
  ∃ attrs,
    render_choice field (Choice key val label)
      = Ok (Some ("<option " +:+ html_params attrs +:+ ">"
                    +:+ escape (text_type label) false +:+ "</option>")) ∧
    (attrs !! "selected" = Some (VBool true) ↔ data_selects (field_data field) val) ∧
    (attrs !! "selected" = None ↔ ¬ data_selects (field_data field) val).
Proof.
  exists (option_attributes key (is_selected field val) ∅). split_and!.
  - apply render_choice_Choice.
  - rewrite option_attributes_selected, <- is_selected_spec.
    by destruct (is_selected field val).
  - rewrite option_attributes_selected, <- is_selected_spec.
    by destruct (is_selected field val).
Qed.

(** What [escape] does for labels. For every choice label and every group
    label, the text that is
    inserted is [escape] of the label's text: the body of the [option]
    element and the [label] attribute of the [optgroup] element. Escaped
    text holds neither [<] nor [>], and [escape] replaces each of [&], [<]
    and [>] by its entity and keeps every other character, so a label
    [<script>] is inserted as [&lt;script&gt;]. A group whose entries are
    choices or groups does render. *)
Theorem labels_are_escaped `{Host} (field : Field) (label : value) :
  let text := escape (text_type label) false in
  (occurs "<"%char text = false ∧ occurs ">"%char text = false ∧
   text = string_flat_map (escape_char false) (text_type label)) ∧
  (∀ val selected kwargs,
     render_option val label selected kwargs
     = "<option " +:+ html_params (option_attributes val selected kwargs) +:+ ">"
         +:+ text +:+ "</option>") ∧
  (∀ choices s,
     render_optgroup field label choices = Ok s →
     ∃ body, s = "<optgroup label=" +:+ dquote +:+ text +:+ dquote +:+ ">"
                   +:+ body +:+ "</optgroup>") ∧
  (∀ choices, forallb recognized choices = true →
     ∃ s, render_optgroup field label choices = Ok s) ∧
  escape "<script>" false = "&lt;script&gt;".
Proof.
  cbv zeta. split_and!.
  - apply escape_no_lt.
  - apply escape_no_gt.
  - apply escape_per_char.
  - done.
  - intros choices s. unfold render_optgroup, render_optgroup_with.
    destruct (mapM _ choices) as [rendered|e]; simpl; [|done].
    destruct (py_join newline rendered) as [body|e]; simpl; [|done].
    intros [= <-]. by exists body.
  - intros choices Hrec.
    destruct (render_choice_recognized field (Choices label choices) Hrec) as [s Hs].
    rewrite render_choice_Choices in Hs.
    destruct (render_optgroup field label choices) as [s'|e]; [by exists s'|done].
  - reflexivity.
Qed.

(** [escape] without [quote] keeps the double quote: the caller of
    [render_optgroup] sees it unescaped inside the [label] attribute. *)
Example escape_keeps_double_quote :
  escape dquote false = dquote ∧ escape dquote true = "&quot;".
Proof. split; by vm_compute. Qed.

(** *** The double quote in a group label *)

Lemma occurs_replace_char_kept (c c' : ascii) (r s : string) :
  c ≠ c' → occurs c r = false →
  occurs c (replace_char c' r s) = occurs c s.
Proof.
  intros Hne Hr. induction s as [|a s IH]; [done|]. simpl.
  destruct (bool_decide (a = c')) eqn:Ha; simpl.
  - apply bool_decide_eq_true in Ha as ->.
    rewrite occurs_app, Hr, IH. simpl.
    by rewrite bool_decide_eq_false_2 by done.
  - by rewrite IH.
Qed.

Lemma escape_keeps_dquote (s : string) :
  occurs "034"%char (escape s false) = occurs "034"%char s.
Proof.
  unfold escape. cbv zeta.
  by rewrite !occurs_replace_char_kept.
Qed.

Lemma escape_quote_no_dquote (s : string) :
  occurs "034"%char (escape s true) = false.
Proof. unfold escape. cbv zeta. by apply occurs_replace_same. Qed.

(** A group label that holds double quotes, and a field with that group. *)
Definition quoting_label : string := q "x' onmouseover='alert(1)".

Definition field_with_quoting_label : Field :=
  with_choices (Scalar VNone)
    [Choices (VStr quoting_label) [Choice (VStr "a") (VStr "a") (VStr "A")]]
    (blank_field "f").

(** C7. Group labels are not kept out of the markup. [render_optgroup]
    puts [escape] of the label, called without [quote], between the double
    quotes of the [label] attribute, and [escape] without [quote] keeps
    every double quote of the label. So a group label with a double quote
    ends the attribute early and the rest of the label is read as markup:
    the select of [field_with_quoting_label] has an [optgroup] with an
    [onmouseover] attribute. The sibling path does what this one misses:
    [html_params], which writes every other attribute, escapes with
    [quote], after which no double quote is left. *)
Theorem optgroup_label_double_quote_not_escaped `{Host} (field : Field) (label : value)
    (choices : list choice_entry) :
  (forallb recognized choices = true →
     ∃ body,
       render_choice field (Choices label choices)
       = Ok (Some ("<optgroup label=" +:+ dquote +:+ escape (text_type label) false
                     +:+ dquote +:+ ">" +:+ body +:+ "</optgroup>"))) ∧
  occurs "034"%char (escape (text_type label) false)
    = occurs "034"%char (text_type label) ∧
  occurs "034"%char (escape (text_type label) true) = false ∧
  (@SelectWidget_call wtforms_1_0 single_select field_with_quoting_label ∅ []).1
    = Ok (q ("<select id='f' name='f'>"
             +:+ "<optgroup label='x' onmouseover='alert(1)'>"
             +:+ "<option value='a'>A</option></optgroup></select>")) ∧
  wtforms_html_params {["label" := VStr quoting_label]}
    = q "label='x&quot; onmouseover=&quot;alert(1)'".
Proof.
  split_and!.
  - intros Hrec.
    destruct (render_choice_recognized field (Choices label choices) Hrec) as [s Hs].
    rewrite render_choice_Choices in Hs |- *.
    unfold render_optgroup, render_optgroup_with in Hs |- *.
    destruct (mapM _ choices) as [rendered|e]; simpl in Hs |- *; [|done].
    destruct (py_join newline rendered) as [body|e]; simpl in Hs |- *; [|done].
    by exists body.
  - apply escape_keeps_dquote.
  - apply escape_quote_no_dquote.
  - by vm_compute.
  - by vm_compute.
Qed.

(** ** Calls do not depend on earlier calls *)

Lemma HTML5Input_call_result `{Host} (self : HTML5Input) (field : Field) (kw : dict)
    (h : heap) :
  (options self < length h)%nat →
  (HTML5Input_call self field kw h).1 =
    if hasattr_widget_options field then Raise AttributeError
    else Input_call (input_type (widget_class self)) field
           (merged_attributes (widget_class self) field (deref (options self) h) kw).
Proof.
  intros Hopts. rewrite HTML5Input_call_run by done. simpl.
  by destruct (hasattr_widget_options field).
Qed.

Lemma HTML5Input_call_extends `{Host} (self : HTML5Input) (field : Field) (kw : dict)
    (h : heap) :
  (options self < length h)%nat →
  ∃ new, (HTML5Input_call self field kw h).2 = h ++ new.
Proof.
  intros Hopts. rewrite HTML5Input_call_run by done. simpl.
  destruct (hasattr_widget_options field); eauto.
Qed.

Lemma lookup_extends (h new : heap) (l : loc) (d : dict) :
  h !! l = Some d → (h ++ new) !! l = Some d.
Proof. intros Hl. rewrite lookup_app_l; [done|]. by eapply lookup_lt_Some. Qed.

Lemma deref_extends (h new : heap) (l : loc) :
  (l < length h)%nat → deref l (h ++ new) = deref l h.
Proof. intros Hl. unfold deref. by rewrite lookup_app_l. Qed.

(** C9. Rendering is a function of the widget, the field and the keyword
    arguments. A call of an HTML5Input widget reads the store only at
    [self.options]: from two stores that hold the same dict there, equal
    calls give equal results. A call changes no dict that was in the store
    (it only adds the dicts it created), so the same call made again, right
    after the first, gives the same result. The same holds for
    [SelectWidget], whose result does not depend on the store at all. *)
Theorem rendering_is_repeatable `{Host} (w : HTML5Input) (s : SelectWidget)
    (field : Field) (kw : dict) (h : heap) :
  (options w < length h)%nat →
  ((HTML5Input_call w field kw (HTML5Input_call w field kw h).2).1
     = (HTML5Input_call w field kw h).1 ∧
   (∀ l d, h !! l = Some d → (HTML5Input_call w field kw h).2 !! l = Some d) ∧
   (∀ h', (options w < length h')%nat → deref (options w) h' = deref (options w) h →
      (HTML5Input_call w field kw h').1 = (HTML5Input_call w field kw h).1)) ∧
  ((SelectWidget_call s field kw (SelectWidget_call s field kw h).2).1
     = (SelectWidget_call s field kw h).1 ∧
   (∀ l d, h !! l = Some d → (SelectWidget_call s field kw h).2 !! l = Some d) ∧
   (∀ h', (SelectWidget_call s field kw h').1 = (SelectWidget_call s field kw h).1)).
Proof.
  intros Hopts. split; split_and!.
  - destruct (HTML5Input_call_extends w field kw h Hopts) as [new ->].
    rewrite !HTML5Input_call_result; [|done|rewrite length_app; lia].
    by rewrite deref_extends.
  - intros l d Hl.
    destruct (HTML5Input_call_extends w field kw h Hopts) as [new ->].
    by apply lookup_extends.
  - intros h' Hopts' Hsame. rewrite !HTML5Input_call_result by done.
    by rewrite Hsame.
  - by rewrite !SelectWidget_call_run.
  - intros l d Hl. rewrite SelectWidget_call_run. by apply lookup_extends.
  - intros h'. by rewrite !SelectWidget_call_run.
Qed.

Lemma rendering_is_repeatable_witness :
  let w := widget_at_0 (DateTimeWidget DateInput) in
  let field := with_choices (Scalar (VStr "b")) abc_choices date_field in
  let kw : dict := {["class_" := VStr "wide"]} in
  let h := one_widget_heap {["placeholder" := VStr "yyyy-mm-dd"]} in
  ((@HTML5Input_call wtforms_1_0 w field kw
      (@HTML5Input_call wtforms_1_0 w field kw h).2).1
     = (@HTML5Input_call wtforms_1_0 w field kw h).1 ∧
   (∀ l d, h !! l = Some d →
      (@HTML5Input_call wtforms_1_0 w field kw h).2 !! l = Some d) ∧
   (∀ h', (options w < length h')%nat → deref (options w) h' = deref (options w) h →
      (@HTML5Input_call wtforms_1_0 w field kw h').1
      = (@HTML5Input_call wtforms_1_0 w field kw h).1)) ∧
  ((@SelectWidget_call wtforms_1_0 single_select field kw
      (@SelectWidget_call wtforms_1_0 single_select field kw h).2).1
     = (@SelectWidget_call wtforms_1_0 single_select field kw h).1 ∧
   (∀ l d, h !! l = Some d →
      (@SelectWidget_call wtforms_1_0 single_select field kw h).2 !! l = Some d) ∧
   (∀ h', (@SelectWidget_call wtforms_1_0 single_select field kw h').1
          = (@SelectWidget_call wtforms_1_0 single_select field kw h).1)).
Proof.
  apply (@rendering_is_repeatable wtforms_1_0
           (widget_at_0 (DateTimeWidget DateInput)) single_select
           (with_choices (Scalar (VStr "b")) abc_choices date_field)
           {["class_" := VStr "wide"]}
           (one_widget_heap {["placeholder" := VStr "yyyy-mm-dd"]})).
  simpl. lia.
Defined.

Example date_input_twice :
  let w := widget_at_0 (DateTimeWidget DateInput) in
  let h := one_widget_heap {["class_" := VStr "date"]} in
  let first := @HTML5Input_call wtforms_1_0 w date_field ∅ h in
  let second := @HTML5Input_call wtforms_1_0 w date_field ∅ first.2 in
  first.1 = Ok (q ("<input class='date' id='when' max='2020-12-31' "
                   +:+ "min='2020-01-01' name='when' required type='date' value=''>"))
  ∧ second.1 = first.1
  ∧ deref 0%nat second.2 = {["class_" := VStr "date"]}.
Proof. split_and!; by vm_compute. Qed.

Example required_false_is_kept :
  (@HTML5Input_call wtforms_1_0 (widget_at_0 (DateTimeWidget DateInput)) date_field
     {["required" := VBool false]} (one_widget_heap ∅)).1
  = Ok (q ("<input id='when' max='2020-12-31' min='2020-01-01' name='when' "
           +:+ "required='False' type='date' value=''>")).
Proof. by vm_compute. Qed.

Example widget_options_raise :
  (@HTML5Input_call wtforms_1_0 (widget_at_0 TextInput)
     (with_widget_options [("placeholder", VStr "name")] (blank_field "f"))
     ∅ (one_widget_heap ∅)).1
  = Raise AttributeError.
Proof. by vm_compute. Qed.

(** * Further properties of the module *)

(** ** min_max: what the result depends on *)

Lemma present_mins_elem {B} (c : validator_class B) (field : Field) (x : B) :
  x ∈ present_mins c field
  ↔ ∃ v instance, v ∈ validators field ∧ as_instance v c = Some instance
                   ∧ validator_min instance = Some x.
Proof.
  unfold present_mins, instances. rewrite list_elem_of_omap.
  setoid_rewrite list_elem_of_omap. split.
  - intros (inst & (v & Hv & Hi) & Hx). by exists v, inst.
  - intros (v & inst & Hv & Hi & Hx). exists inst. split; [by exists v|done].
Qed.

Lemma present_maxs_elem {B} (c : validator_class B) (field : Field) (x : B) :
  x ∈ present_maxs c field
  ↔ ∃ v instance, v ∈ validators field ∧ as_instance v c = Some instance
                   ∧ validator_max instance = Some x.
Proof.
  unfold present_maxs, instances. rewrite list_elem_of_omap.
  setoid_rewrite list_elem_of_omap. split.
  - intros (inst & (v & Hv & Hi) & Hx). by exists v, inst.
  - intros (v & inst & Hv & Hi & Hx). exists inst. split; [by exists v|done].
Qed.

Lemma instances_Permutation {B} (c : validator_class B) (f f' : Field) :
  filter (λ v, isinstance v c = true) (validators f)
    ≡ₚ filter (λ v, isinstance v c = true) (validators f') →
  instances c f ≡ₚ instances c f'.
Proof.
  intros Hperm. unfold instances.
  rewrite <- (instances_filter c (validators f)).
  rewrite <- (instances_filter c (validators f')).
  by rewrite Hperm.
Qed.

(** The result is determined by which bounds occur, not by where or how
    often. *)
Lemma min_max_same_bounds {B} `{ComparableLaws B} (f f' : Field) (c : validator_class B) :
  (∀ x, x ∈ present_mins c f ↔ x ∈ present_mins c f') →
  (∀ x, x ∈ present_maxs c f ↔ x ∈ present_maxs c f') →
  min_max f c = min_max f' c.
Proof.
  intros Hmins Hmaxs. apply map_eq. intros k.
  destruct (decide (k = "min")) as [->|Hmin]; [|destruct (decide (k = "max")) as [->|Hmax]].
  - rewrite !min_max_lookup_min.
    destruct (present_mins c f) as [|x xs] eqn:Hf,
             (present_mins c f') as [|y ys] eqn:Hf'; [done| | |].
    + exfalso. eapply elem_of_nil, Hmins. by left.
    + exfalso. eapply elem_of_nil, Hmins. by left.
    + f_equal. apply (is_maximum_unique _ _ (x :: xs)); [apply py_max_is_maximum|].
      destruct (py_max_is_maximum y ys) as [Hin Hub]. split.
      * by apply Hmins.
      * intros z Hz. apply Hub. by apply Hmins.
  - rewrite !min_max_lookup_max.
    destruct (present_maxs c f) as [|x xs] eqn:Hf,
             (present_maxs c f') as [|y ys] eqn:Hf'; [done| | |].
    + exfalso. eapply elem_of_nil, Hmaxs. by left.
    + exfalso. eapply elem_of_nil, Hmaxs. by left.
    + f_equal. apply (is_minimum_unique _ _ (x :: xs)); [apply py_min_is_minimum|].
      destruct (py_min_is_minimum y ys) as [Hin Hlb]. split.
      * by apply Hmaxs.
      * intros z Hz. apply Hlb. by apply Hmaxs.
  - by rewrite !min_max_lookup_other.
Qed.

(** X1. [min_max] does not depend on the order of the validators, nor on
    the validators of other classes: two fields whose validators of the
    class are the same up to order give the same dict. *)
Theorem min_max_order_independent {B} `{ComparableLaws B} (f f' : Field)
    (c : validator_class B) :
  filter (λ v, isinstance v c = true) (validators f)
    ≡ₚ filter (λ v, isinstance v c = true) (validators f') →
  min_max f c = min_max f' c.
Proof.
  intros Hperm. apply instances_Permutation in Hperm.
  apply min_max_same_bounds; intros x.
  - unfold present_mins. by rewrite Hperm.
  - unfold present_maxs. by rewrite Hperm.
Qed.

Lemma min_max_order_independent_witness :
  min_max
    (with_validators [NumberRangeV (Some 3) (Some 6); DataRequiredV;
                      NumberRangeV (Some 4) (Some 7)] (blank_field "n"))
    NumberRange
  = min_max
      (with_validators [NumberRangeV (Some 4) (Some 7);
                        NumberRangeV (Some 3) (Some 6)] (blank_field "n"))
      NumberRange.
Proof.
  apply (@min_max_order_independent Z Z_comparable Z_comparable_laws).
  simpl. rewrite !filter_cons. simpl. apply perm_swap.
Defined.

(** X2. More validators only tighten the range. When every validator of
    [f] is also a validator of [f'], a [min] of [f] is still present in
    [f'] and is not lowered, and a [max] is still present and not
    raised. *)
Theorem min_max_more_validators_tighten {B} `{ComparableLaws B} (f f' : Field)
    (c : validator_class B) :
  validators f ⊆ validators f' →
  (∀ m, min_max f c !! "min" = Some m →
     ∃ m', min_max f' c !! "min" = Some m' ∧ py_lt m' m = false) ∧
  (∀ m, min_max f c !! "max" = Some m →
     ∃ m', min_max f' c !! "max" = Some m' ∧ py_lt m m' = false).
Proof.
  intros Hsub. split; intros m Hm.
  - rewrite min_max_lookup_min in Hm |- *.
    destruct (present_mins c f) as [|x xs] eqn:Hf; [done|]. simplify_eq.
    assert (py_max x xs ∈ present_mins c f') as Hin.
    { apply present_mins_elem.
      destruct (proj1 (present_mins_elem c f (py_max x xs)))
        as (v & inst & Hv & Hi & Hx).
      { rewrite Hf. apply py_max_elem. }
      exists v, inst. split_and!; [by apply Hsub|done|done]. }
    destruct (present_mins c f') as [|y ys]; [by apply elem_of_nil in Hin|].
    eexists. split; [done|]. by apply py_max_upper.
  - rewrite min_max_lookup_max in Hm |- *.
    destruct (present_maxs c f) as [|x xs] eqn:Hf; [done|]. simplify_eq.
    assert (py_min x xs ∈ present_maxs c f') as Hin.
    { apply present_maxs_elem.
      destruct (proj1 (present_maxs_elem c f (py_min x xs)))
        as (v & inst & Hv & Hi & Hx).
      { rewrite Hf. apply py_min_elem. }
      exists v, inst. split_and!; [by apply Hsub|done|done]. }
    destruct (present_maxs c f') as [|y ys]; [by apply elem_of_nil in Hin|].
    eexists. split; [done|]. by apply py_min_lower.
Qed.

Lemma min_max_more_validators_tighten_witness :
  let f := with_validators [NumberRangeV (Some 3) (Some 6)] (blank_field "n") in
  (∀ m, min_max f NumberRange !! "min" = Some m →
     ∃ m', min_max docstring_field NumberRange !! "min" = Some m' ∧ py_lt m' m = false) ∧
  (∀ m, min_max f NumberRange !! "max" = Some m →
     ∃ m', min_max docstring_field NumberRange !! "max" = Some m' ∧ py_lt m m' = false).
Proof.
  apply (@min_max_more_validators_tighten Z Z_comparable Z_comparable_laws
           (with_validators [NumberRangeV (Some 3) (Some 6)] (blank_field "n"))
           docstring_field NumberRange).
  simpl. intros v Hv. apply list_elem_of_singleton in Hv as ->. by left.
Defined.

(** X3. When exactly one validator of a range class is attached,
    [min_max] hands back the two attributes of that instance as they are: a
    bound that is [None] gives no key, and a [min] above the [max] is
    returned unchanged (the range is not checked for being non-empty). *)
Theorem min_max_single_validator {B} `{Comparable B} (field : Field)
    (c : validator_class B) (v : Validator) :
  filter (λ v, isinstance v c = true) (validators field) = [v] →
  ∃ instance,
    as_instance v c = Some instance ∧
    min_max field c !! "min" = validator_min instance ∧
    min_max field c !! "max" = validator_max instance.
Proof.
  intros Hone.
  assert (isinstance v c = true) as Hi.
  { assert (v ∈ filter (λ v, isinstance v c = true) (validators field)) as Hv
      by (rewrite Hone; by left).
    by apply list_elem_of_filter in Hv as [Hi _]. }
  rewrite isinstance_as_instance in Hi.
  destruct (as_instance v c) as [instance|] eqn:Hv; [|done].
  exists instance. split; [done|].
  rewrite min_max_lookup_min, min_max_lookup_max.
  unfold present_mins, present_maxs, instances.
  rewrite <- (instances_filter c (validators field)), Hone. simpl.
  rewrite Hv. simpl.
  by destruct (validator_min instance), (validator_max instance).
Qed.

Lemma min_max_single_validator_witness :
  let field := with_validators [DataRequiredV; NumberRangeV (Some 9) (Some 2)]
                 (blank_field "n") in
  ∃ instance,
    as_instance (NumberRangeV (Some 9) (Some 2)) NumberRange = Some instance ∧
    min_max field NumberRange !! "min" = validator_min instance ∧
    min_max field NumberRange !! "max" = validator_max instance.
Proof.
  apply (@min_max_single_validator Z Z_comparable
           (with_validators [DataRequiredV; NumberRangeV (Some 9) (Some 2)]
              (blank_field "n"))
           NumberRange (NumberRangeV (Some 9) (Some 2))).
  reflexivity.
Defined.

Lemma has_validator_elem (field : Field) (c : any_validator_class) :
  has_validator field c = true ↔ ∃ v, v ∈ validators field ∧ isinstance v c = true.
Proof.
  unfold has_validator. rewrite existsb_exists.
  by setoid_rewrite list_elem_of_In.
Qed.

Lemma min_max_no_instance {B} `{Comparable B} (field : Field) (c : validator_class B) :
  has_validator field c = false → min_max field c = ∅.
Proof.
  intros Hno. rewrite min_max_unfold.
  assert (filter (λ v, isinstance v c = true) (validators field) = []) as Hnil.
  { destruct (filter _ (validators field)) as [|v vs] eqn:Hf; [done|].
    assert (v ∈ filter (λ v, isinstance v c = true) (validators field)) as Hv
      by (rewrite Hf; by left).
    apply list_elem_of_filter in Hv as [Hi Hv].
    assert (has_validator field c = true) by (apply has_validator_elem; eauto).
    congruence. }
  unfold present_mins, present_maxs, instances.
  by rewrite <- (instances_filter c (validators field)), Hnil.
Qed.

(** X4. [has_validator] and [min_max] agree: when [has_validator] finds no
    instance of the class, [min_max] returns the empty dict; and whenever
    [min_max] returns a bound, [has_validator] is true. *)
Theorem min_max_empty_without_validator {B} `{Comparable B} (field : Field)
    (c : validator_class B) :
  (has_validator field c = false → min_max field c = ∅) ∧
  (min_max field c ≠ ∅ → has_validator field c = true).
Proof.
  split; [apply min_max_no_instance|]. intros Hne.
  destruct (has_validator field c) eqn:Hc; [done|].
  destruct Hne. by apply min_max_no_instance.
Qed.

(** ** HTML5 input widgets: which attributes are derived *)

(** The classes that override [range_validators]. *)
Definition overrides_range_validators (c : HTML5Input_class) : bool :=
  match c with
  | DateTimeWidget _ | NumberInput => true
  | _ => false
  end.

Lemma HTML5Input_call_returns `{Host} (self : HTML5Input) (field : Field) (kw : dict)
    (h : heap) :
  (options self < length h)%nat →
  widget_options field = None →
  HTML5Input_call self field kw h
  = (Input_call (input_type (widget_class self)) field
       (merged_attributes (widget_class self) field (deref (options self) h) kw),
     h ++ [kwargs_with_defaults (widget_class self) field kw;
           merged_attributes (widget_class self) field (deref (options self) h) kw]).
Proof.
  intros Hopts Hno. rewrite HTML5Input_call_run by done.
  unfold hasattr_widget_options. by rewrite Hno.
Qed.

(** X5. A field without validators gets no derived attribute: the base
    renderer receives the caller's keywords over the widget's base options
    and nothing else, for every widget class. *)
Theorem HTML5Input_call_no_validators `{Host} (self : HTML5Input) (field : Field)
    (kw : dict) (h : heap) :
  (options self < length h)%nat →
  widget_options field = None →
  validators field = [] →
  (HTML5Input_call self field kw h).1
  = Input_call (input_type (widget_class self)) field (kw ∪ deref (options self) h).
Proof.
  intros Hopts Hno Hnil. rewrite HTML5Input_call_returns by done. simpl.
  do 2 f_equal. unfold merged_attributes, kwargs_with_defaults, derived_defaults.
  assert (∀ c : any_validator_class, has_validator field c = false) as Hhas.
  { intros c. unfold has_validator. by rewrite Hnil. }
  assert (range_validators (widget_class self) field = ∅) as ->.
  { destruct (widget_class self) as [| | | | | | | | | w |]; simpl; try done.
    - unfold BaseDateTimeInput_range_validators. cbv zeta.
      by rewrite (@min_max_no_instance _
                    (bound_comparable (range_validator_class w)) field
                    (validator_class_of (range_validator_class w)) (Hhas _)).
    - rewrite (min_max_no_instance field NumberRange (Hhas _)).
      apply fmap_empty. }
  rewrite Hhas. by rewrite !(right_id_L ∅ (∪)).
Qed.

Lemma HTML5Input_call_no_validators_witness :
  (@HTML5Input_call wtforms_1_0 (widget_at_0 NumberInput) (blank_field "n")
     {["step" := VInt 2]} (one_widget_heap {["class_" := VStr "num"]})).1
  = @Input_call wtforms_1_0 "number" (blank_field "n")
      ({["step" := VInt 2]} ∪ deref 0%nat (one_widget_heap {["class_" := VStr "num"]})).
Proof.
  apply (@HTML5Input_call_no_validators wtforms_1_0 (widget_at_0 NumberInput)
           (blank_field "n") {["step" := VInt 2]}
           (one_widget_heap {["class_" := VStr "num"]})).
  - simpl. lia.
  - reflexivity.
  - reflexivity.
Defined.

(** X6. Only the date, time and number widgets derive [min] and [max]. A
    widget of any other class ([RangeInput] included) derives at most
    [required]: whatever range validators the field has, its [min] and
    [max] are the caller's or else the base option's, and a key other than
    [required] is never derived. *)
Theorem HTML5Input_call_no_range_defaults `{Host} (self : HTML5Input) (field : Field)
    (kw : dict) (h : heap) :
  (options self < length h)%nat →
  widget_options field = None →
  overrides_range_validators (widget_class self) = false →
  ∃ merged h',
    HTML5Input_call self field kw h
      = (Input_call (input_type (widget_class self)) field merged, h') ∧
    ∀ k, k ≠ "required" → merged !! k = (kw ∪ deref (options self) h) !! k.
Proof.
  intros Hopts Hno Hclass. rewrite HTML5Input_call_returns by done.
  eexists _, _. split; [done|]. intros k Hk.
  rewrite merged_attributes_lookup, derived_defaults_range by done.
  assert (range_validators (widget_class self) field = ∅) as ->
    by (by destruct (widget_class self)).
  rewrite lookup_empty, lookup_union. by destruct (kw !! k), (deref _ _ !! k).
Qed.

Lemma HTML5Input_call_no_range_defaults_witness :
  let field := with_validators [NumberRangeV (Some 1) (Some 10)] (blank_field "r") in
  let h := one_widget_heap {["max" := VInt 100]} in
  ∃ merged h',
    @HTML5Input_call wtforms_1_0 (widget_at_0 RangeInput) field ∅ h
      = (@Input_call wtforms_1_0 "range" field merged, h') ∧
    ∀ k, k ≠ "required" → merged !! k = (∅ ∪ deref 0%nat h) !! k.
Proof.
  apply (@HTML5Input_call_no_range_defaults wtforms_1_0 (widget_at_0 RangeInput)
           (with_validators [NumberRangeV (Some 1) (Some 10)] (blank_field "r"))
           ∅ (one_widget_heap {["max" := VInt 100]})).
  - simpl. lia.
  - reflexivity.
  - reflexivity.
Defined.

(** X7. A [NumberInput] on a field with [NumberRange] validators: unless
    the caller passes [min] (or [max]), the attribute is the tightest bound
    of the validators, and it replaces a [min] (or [max]) among the
    widget's base options. *)
Theorem NumberInput_call_bounds `{Host} (self : HTML5Input) (field : Field)
    (kw : dict) (h : heap) :
  (options self < length h)%nat →
  widget_options field = None →
  widget_class self = NumberInput →
  ∃ merged h',
    HTML5Input_call self field kw h = (Input_call "number" field merged, h') ∧
    (kw !! "min" = None → present_mins NumberRange field ≠ [] →
       ∃ m, merged !! "min" = Some (VInt m) ∧ is_maximum m (present_mins NumberRange field)) ∧
    (kw !! "max" = None → present_maxs NumberRange field ≠ [] →
       ∃ m, merged !! "max" = Some (VInt m) ∧ is_minimum m (present_maxs NumberRange field)).
Proof.
  intros Hopts Hno Hclass. rewrite HTML5Input_call_returns by done.
  rewrite Hclass. eexists _, _. split; [done|]. split.
  - intros Hkw Hne. rewrite merged_attributes_lookup, Hkw.
    rewrite derived_defaults_range by done. simpl.
    rewrite lookup_fmap, min_max_lookup_min.
    destruct (present_mins NumberRange field) as [|x xs]; [done|]. simpl.
    eexists. split; [done|]. apply py_max_is_maximum.
  - intros Hkw Hne. rewrite merged_attributes_lookup, Hkw.
    rewrite derived_defaults_range by done. simpl.
    rewrite lookup_fmap, min_max_lookup_max.
    destruct (present_maxs NumberRange field) as [|x xs]; [done|]. simpl.
    eexists. split; [done|]. apply py_min_is_minimum.
Qed.

Lemma NumberInput_call_bounds_witness :
  let h := one_widget_heap {["min" := VInt 0]} in
  ∃ merged h',
    @HTML5Input_call wtforms_1_0 (widget_at_0 NumberInput) docstring_field ∅ h
      = (@Input_call wtforms_1_0 "number" docstring_field merged, h') ∧
    ((∅ : dict) !! "min" = None → present_mins NumberRange docstring_field ≠ [] →
       ∃ m, merged !! "min" = Some (VInt m)
            ∧ is_maximum m (present_mins NumberRange docstring_field)) ∧
    ((∅ : dict) !! "max" = None → present_maxs NumberRange docstring_field ≠ [] →
       ∃ m, merged !! "max" = Some (VInt m)
            ∧ is_minimum m (present_maxs NumberRange docstring_field)).
Proof.
  apply (@NumberInput_call_bounds wtforms_1_0 (widget_at_0 NumberInput)
           docstring_field ∅ (one_widget_heap {["min" := VInt 0]})).
  - simpl. lia.
  - reflexivity.
  - reflexivity.
Defined.

Example number_input_docstring_field :
  (@HTML5Input_call wtforms_1_0 (widget_at_0 NumberInput) docstring_field ∅
     (one_widget_heap {["min" := VInt 0]})).1
  = Ok (q ("<input id='some_integer_field' max='6' min='4' "
           +:+ "name='some_integer_field' type='number' value=''>")).
Proof. by vm_compute. Qed.

(** X8. Each widget reads the validators of its own range class only: a
    [TimeInput] derives nothing from a field without a [TimeRange]
    validator, the three date widgets nothing from a field without a
    [DateRange] validator, and a [NumberInput] nothing from a field without
    a [NumberRange] validator, whatever other validators the field has. *)
Theorem range_validators_own_class_only (field : Field) :
  (has_validator field TimeRange = false →
     range_validators (DateTimeWidget TimeInput) field = ∅) ∧
  (has_validator field DateRange = false →
     range_validators (DateTimeWidget DateInput) field = ∅ ∧
     range_validators (DateTimeWidget DateTimeLocalInput) field = ∅ ∧
     range_validators (DateTimeWidget DateTimeInput) field = ∅) ∧
  (has_validator field NumberRange = false →
     range_validators NumberInput field = ∅).
Proof.
  simpl. unfold BaseDateTimeInput_range_validators. simpl. split_and!.
  - intros Hno. by rewrite (min_max_no_instance field TimeRange Hno).
  - intros Hno. by rewrite (min_max_no_instance field DateRange Hno).
  - intros Hno. rewrite (min_max_no_instance field NumberRange Hno).
    apply fmap_empty.
Qed.

(** ** ReadOnlyWidgetProxy: composition *)

Lemma dict_setdefault_idemp (k : string) (v : value) (d : dict) :
  dict_setdefault k v (dict_setdefault k v d) = dict_setdefault k v d.
Proof.
  unfold dict_setdefault at 1 2. destruct (d !! k) eqn:Hk.
  - unfold dict_setdefault. by rewrite Hk.
  - unfold dict_setdefault. rewrite Hk. by rewrite lookup_insert_eq.
Qed.

(** X9. Wrapping a proxy in a proxy changes nothing for the wrapped
    renderer: it is called with the same keyword arguments as under one
    proxy (only one more dict is created on the way). *)
Theorem ReadOnlyWidgetProxy_twice (self : ReadOnlyWidgetProxy) (field : Field)
    (kw : dict) (h : heap) :
  ∃ passed h1 h2,
    ReadOnlyWidgetProxy_call self field kw h = widget self field passed h1 ∧
    ReadOnlyWidgetProxy_call {| widget := ReadOnlyWidgetProxy_call self |} field kw h
      = widget self field passed h2 ∧
    h1 = h ++ [passed] ∧ h2 = h ++ [passed; passed].
Proof.
  exists (dict_setdefault "readonly" (VBool true) kw). eexists _, _.
  rewrite !ReadOnlyWidgetProxy_call_run. simpl.
  rewrite ReadOnlyWidgetProxy_call_run. simpl.
  rewrite dict_setdefault_idemp, <- (assoc_L (++)). done.
Qed.

(** X10. A proxy around an HTML5Input widget: the base renderer receives
    [readonly] as the caller gave it, else [True], also when the widget's
    base options set [readonly] themselves; every other attribute is what
    the widget alone would pass. *)
Theorem ReadOnlyWidgetProxy_over_HTML5Input `{Host} (w : HTML5Input) (field : Field)
    (kw : dict) (h : heap) :
  (options w < length h)%nat →
  widget_options field = None →
  ∃ merged merged0 h' h0,
    ReadOnlyWidgetProxy_call {| widget := HTML5Input_call w |} field kw h
      = (Input_call (input_type (widget_class w)) field merged, h') ∧
    HTML5Input_call w field kw h
      = (Input_call (input_type (widget_class w)) field merged0, h0) ∧
    merged !! "readonly" = Some (default (VBool true) (kw !! "readonly")) ∧
    (∀ k, k ≠ "readonly" → merged !! k = merged0 !! k).
Proof.
  intros Hopts Hno. rewrite ReadOnlyWidgetProxy_call_run. simpl.
  rewrite !HTML5Input_call_returns; [|done..|rewrite length_app; lia|done].
  rewrite deref_allocated by done.
  eexists _, _, _, _. split_and!; [done|done| |].
  - rewrite merged_attributes_lookup. unfold dict_setdefault.
    destruct (kw !! "readonly") eqn:Hr; simpl; [by rewrite Hr|].
    by rewrite lookup_insert_eq.
  - intros k Hk. rewrite !merged_attributes_lookup. unfold dict_setdefault.
    destruct (kw !! "readonly"); [done|]. by rewrite lookup_insert_ne.
Qed.

Lemma ReadOnlyWidgetProxy_over_HTML5Input_witness :
  let w := widget_at_0 TextInput in
  let h := one_widget_heap {["readonly" := VBool false]} in
  ∃ merged merged0 h' h0,
    ReadOnlyWidgetProxy_call {| widget := @HTML5Input_call wtforms_1_0 w |}
      (blank_field "t") ∅ h
      = (@Input_call wtforms_1_0 "text" (blank_field "t") merged, h') ∧
    @HTML5Input_call wtforms_1_0 w (blank_field "t") ∅ h
      = (@Input_call wtforms_1_0 "text" (blank_field "t") merged0, h0) ∧
    merged !! "readonly" = Some (default (VBool true) ((∅ : dict) !! "readonly")) ∧
    (∀ k, k ≠ "readonly" → merged !! k = merged0 !! k).
Proof.
  apply (@ReadOnlyWidgetProxy_over_HTML5Input wtforms_1_0 (widget_at_0 TextInput)
           (blank_field "t") ∅ (one_widget_heap {["readonly" := VBool false]})).
  - simpl. lia.
  - reflexivity.
Defined.

Example readonly_proxy_beats_base_option :
  (ReadOnlyWidgetProxy_call {| widget := @HTML5Input_call wtforms_1_0 (widget_at_0 TextInput) |}
     (blank_field "t") ∅ (one_widget_heap {["readonly" := VBool false]})).1
  = Ok (q "<input id='t' name='t' readonly type='text' value=''>").
Proof. by vm_compute. Qed.

(** ** SelectWidget: the tag, the body, and what is read of the field *)

(** X11. A [name] keyword given to [SelectWidget.__call__] is always a
    [TypeError], whatever the field and its choices: the name of the
    select is the field's and cannot be overridden. *)
Theorem SelectWidget_call_name_keyword `{Host} (self : SelectWidget) (field : Field)
    (kw : dict) (h : heap) (v : value) :
  kw !! "name" = Some v →
  (SelectWidget_call self field kw h).1 = Raise TypeError.
Proof.
  intros Hname. rewrite SelectWidget_call_run. simpl.
  unfold select_markup, with_keyword.
  by rewrite select_kwargs_name, Hname.
Qed.

Lemma SelectWidget_call_name_keyword_witness :
  (@SelectWidget_call wtforms_1_0 single_select
     (with_choices (Scalar VNone) abc_choices (blank_field "f"))
     {["name" := VStr "g"]} []).1
  = Raise TypeError.
Proof.
  apply (@SelectWidget_call_name_keyword wtforms_1_0 single_select
           (with_choices (Scalar VNone) abc_choices (blank_field "f"))
           {["name" := VStr "g"]} [] (VStr "g")).
  reflexivity.
Defined.

(** [''.join] of strings. *)
Lemma string_app_empty_r (s : string) : s +:+ "" = s.
Proof. induction s as [|a s IH]; [done|]. by rewrite string_app_cons, IH. Qed.

Lemma concat_empty_cons (x : string) (l : list string) :
  String.concat "" (x :: l) = x +:+ String.concat "" l.
Proof. destruct l; simpl; [by rewrite string_app_empty_r|done]. Qed.

Lemma concat_empty_snoc (l : list string) (y : string) :
  String.concat "" (l ++ [y]) = String.concat "" l +:+ y.
Proof.
  induction l as [|x l IH]; [done|].
  change ((x :: l) ++ [y]) with (x :: (l ++ [y])).
  by rewrite !concat_empty_cons, IH, string_app_assoc.
Qed.

(** The markup of an entry that is a [Choice] or a [Choices] group. *)
Fixpoint markup `{Host} (field : Field) (c : choice_entry) : HTMLString :=
  match c with
  | Choice key val label => render_option key label (is_selected field val) ∅
  | Choices label choices =>
      "<optgroup label=" +:+ dquote +:+ escape (text_type label) false +:+ dquote
        +:+ ">" +:+ String.concat newline (markup field <$> choices)
        +:+ "</optgroup>"
  | Unrecognized => ""
  end.

Lemma mapM_render_choice_markup `{Host} (field : Field) (choices : list choice_entry) :
  Forall (λ c, recognized c = true →
               render_choice field c = Ok (Some (markup field c))) choices →
  forallb recognized choices = true →
  mapM (render_choice field) choices = Ok (Some <$> (markup field <$> choices)).
Proof.
  induction 1 as [|c cs Hc _ IH]; [done|].
  intros Hrec. simpl in Hrec. apply andb_true_iff in Hrec as [Hrc Hrcs].
  by rewrite mapM_res_cons, Hc, IH.
Qed.

Lemma render_choice_markup `{Host} (field : Field) (c : choice_entry) :
  recognized c = true → render_choice field c = Ok (Some (markup field c)).
Proof.
  induction c as [key val label|label choices IH|]
    using choice_entry_nested_ind; intros Hrec; [done| |done].
  rewrite render_choice_Choices. unfold render_optgroup, render_optgroup_with.
  rewrite mapM_render_choice_markup by done. simpl.
  by rewrite py_join_strings.
Qed.

Lemma select_kwargs_lookup (self : SelectWidget) (field : Field) (kw : dict) (k : string) :
  select_kwargs self field kw !! k =
    if bool_decide (k = "multiple") && multiple self then Some (VBool true)
    else if bool_decide (k = "id") then Some (default (VStr (field_id field)) (kw !! "id"))
    else kw !! k.
Proof.
  unfold select_kwargs, dict_setdefault.
  destruct (multiple self), (kw !! "id") eqn:Hid;
    repeat case_bool_decide; simplify_map_eq; done.
Qed.

Lemma py_join_tagged (a b : HTMLString) (ms : list HTMLString) :
  py_join "" (Some a :: (Some <$> ms) ++ [Some b])
  = Ok (a +:+ String.concat "" ms +:+ b).
Proof.
  replace (Some a :: (Some <$> ms) ++ [Some b])
    with (Some <$> (a :: ms ++ [b])) by (simpl; by rewrite fmap_app).
  by rewrite py_join_strings, concat_empty_cons, concat_empty_snoc.
Qed.

Lemma SelectWidget_call_recognized `{Host} (self : SelectWidget) (field : Field)
    (kw : dict) (h : heap) :
  forallb recognized (iter_choices field) = true →
  kw !! "name" = None →
  (SelectWidget_call self field kw h).1
  = Ok ("<select "
          +:+ html_params (<["name" := VStr (field_name field)]> (select_kwargs self field kw))
          +:+ ">" +:+ String.concat "" (markup field <$> iter_choices field)
          +:+ "</select>").
Proof.
  intros Hrec Hname. rewrite SelectWidget_call_run. simpl.
  unfold select_markup, with_keyword. rewrite select_kwargs_name, Hname. simpl.
  rewrite mapM_render_choice_markup;
    [|apply Forall_forall; intros c _; apply render_choice_markup|done].
  simpl. rewrite py_join_tagged. by rewrite !string_app_assoc.
Qed.

(** X12. The attributes of the [select] tag, for a field that renders (its
    entries are choices or groups, no [name] keyword): [name] is the
    field's name; [id] is the caller's [id] if given, else the field's id;
    [multiple] is [True] when the widget is a multiple select, even if the
    caller passed another value, and otherwise the caller's; every other
    attribute is as the caller passed it. *)
Theorem SelectWidget_call_tag_attributes `{Host} (self : SelectWidget) (field : Field)
    (kw : dict) (h : heap) :
  forallb recognized (iter_choices field) = true →
  kw !! "name" = None →
  ∃ params rest,
    (SelectWidget_call self field kw h).1
      = Ok ("<select " +:+ html_params params +:+ ">" +:+ rest) ∧
    params !! "name" = Some (VStr (field_name field)) ∧
    params !! "id" = Some (default (VStr (field_id field)) (kw !! "id")) ∧
    params !! "multiple" = (if multiple self then Some (VBool true) else kw !! "multiple") ∧
    (∀ k, k ≠ "name" → k ≠ "id" → k ≠ "multiple" → params !! k = kw !! k).
Proof.
  intros Hrec Hname.
  exists (<["name" := VStr (field_name field)]> (select_kwargs self field kw)).
  eexists. split_and!.
  - by apply SelectWidget_call_recognized.
  - by rewrite lookup_insert_eq.
  - rewrite lookup_insert_ne by done. rewrite select_kwargs_lookup.
    by destruct (multiple self).
  - rewrite lookup_insert_ne by done. rewrite select_kwargs_lookup.
    by destruct (multiple self).
  - intros k Hn Hi Hm. rewrite lookup_insert_ne by done.
    rewrite select_kwargs_lookup.
    rewrite !bool_decide_eq_false_2 by done. done.
Qed.

Lemma SelectWidget_call_tag_attributes_witness :
  let field := with_choices (Scalar (VStr "b")) abc_choices (blank_field "f") in
  let kw : dict := {["multiple" := VBool false; "id" := VStr "pick"]} in
  ∃ params rest,
    (@SelectWidget_call wtforms_1_0 multiple_select field kw []).1
      = Ok ("<select " +:+ @html_params wtforms_1_0 params +:+ ">" +:+ rest) ∧
    params !! "name" = Some (VStr (field_name field)) ∧
    params !! "id" = Some (default (VStr (field_id field)) (kw !! "id")) ∧
    params !! "multiple"
      = (if multiple multiple_select then Some (VBool true) else kw !! "multiple") ∧
    (∀ k, k ≠ "name" → k ≠ "id" → k ≠ "multiple" → params !! k = kw !! k).
Proof.
  apply (@SelectWidget_call_tag_attributes wtforms_1_0 multiple_select
           (with_choices (Scalar (VStr "b")) abc_choices (blank_field "f"))
           {["multiple" := VBool false; "id" := VStr "pick"]} []).
  - reflexivity.
  - reflexivity.
Defined.

(** X13. The body of the select, for a field that renders: the markup of
    the entries in their order with nothing between them, then the closing
    tag; no entry gives the empty element. The markup of a choice is its
    option; the markup of a group is the [optgroup] element around the
    markup of its entries, which are separated by newlines, and groups may
    hold groups. *)
Theorem SelectWidget_call_body `{Host} (self : SelectWidget) (field : Field)
    (kw : dict) (h : heap) :
  forallb recognized (iter_choices field) = true →
  kw !! "name" = None →
  (∃ params,
     (SelectWidget_call self field kw h).1
       = Ok ("<select " +:+ html_params params +:+ ">"
               +:+ String.concat "" (markup field <$> iter_choices field)
               +:+ "</select>")) ∧
  (∀ c, c ∈ iter_choices field → render_choice field c = Ok (Some (markup field c))) ∧
  (∀ label choices, forallb recognized choices = true →
     render_optgroup field label choices
     = Ok ("<optgroup label=" +:+ dquote +:+ escape (text_type label) false +:+ dquote
             +:+ ">" +:+ String.concat newline (markup field <$> choices)
             +:+ "</optgroup>")).
Proof.
  intros Hrec Hname. split_and!.
  - eexists. by apply SelectWidget_call_recognized.
  - intros c Hc. apply render_choice_markup.
    rewrite forallb_forall in Hrec. apply Hrec. by apply list_elem_of_In.
  - intros label choices Hchoices.
    pose proof (render_choice_markup field (Choices label choices) Hchoices) as Hg.
    rewrite render_choice_Choices in Hg.
    destruct (render_optgroup field label choices) as [s|e]; [|discriminate Hg].
    by injection Hg as ->.
Qed.

Lemma SelectWidget_call_body_witness :
  let field :=
    with_choices (Scalar (VStr "b"))
      [Choices (VStr "G") abc_choices; Choice (VStr "z") (VStr "z") (VStr "Z")]
      (blank_field "f") in
  (∃ params,
     (@SelectWidget_call wtforms_1_0 single_select field ∅ []).1
       = Ok ("<select " +:+ @html_params wtforms_1_0 params +:+ ">"
               +:+ String.concat "" (@markup wtforms_1_0 field <$> iter_choices field)
               +:+ "</select>")) ∧
  (∀ c, c ∈ iter_choices field →
     @render_choice wtforms_1_0 field c = Ok (Some (@markup wtforms_1_0 field c))) ∧
  (∀ label choices, forallb recognized choices = true →
     @render_optgroup wtforms_1_0 field label choices
     = Ok ("<optgroup label=" +:+ dquote +:+ escape (text_type label) false +:+ dquote
             +:+ ">" +:+ String.concat newline (@markup wtforms_1_0 field <$> choices)
             +:+ "</optgroup>")).
Proof.
  apply (@SelectWidget_call_body wtforms_1_0 single_select
           (with_choices (Scalar (VStr "b"))
              [Choices (VStr "G") abc_choices; Choice (VStr "z") (VStr "z") (VStr "Z")]
              (blank_field "f")) ∅ []).
  - reflexivity.
  - reflexivity.
Defined.

Example select_empty :
  (@SelectWidget_call wtforms_1_0 single_select (blank_field "f") ∅ []).1
  = Ok (q "<select id='f' name='f'></select>").
Proof. by vm_compute. Qed.

(** *** Python equality on scalars is an equivalence *)

Lemma py_eq_sym (a b : value) : py_eq a b = py_eq b a.
Proof.
  destruct a as [|x|n|s], b as [|y|m|t]; simpl; try done;
    apply bool_decide_ext; split; congruence.
Qed.

Lemma py_eq_trans (a b c : value) :
  py_eq a b = true → py_eq b c = true → py_eq a c = true.
Proof.
  destruct a as [|x|n|s], b as [|y|m|t], c as [|z|k|u]; simpl; try done;
    rewrite !bool_decide_eq_true; try congruence.
  intros <- Hz. by destruct x, z.
Qed.

(** X14. With scalar field data, two choices are both rendered as selected
    only if their values are equal (Python [==], under which [True == 1]):
    among choices with pairwise unequal values at most one is selected.
    [is_selected] is the [selected] that [render_choice] passes to
    [render_option]. *)
Theorem scalar_data_selects_equal_values (field : Field) (d v1 v2 : value) :
  field_data field = Scalar d →
  is_selected field v1 = true →
  is_selected field v2 = true →
  py_eq v1 v2 = true.
Proof.
  unfold is_selected. intros -> H1 H2.
  apply py_eq_trans with d; [|done]. by rewrite py_eq_sym.
Qed.

Lemma scalar_data_selects_equal_values_witness :
  py_eq (VBool true) (VInt 1) = true.
Proof.
  apply (scalar_data_selects_equal_values
           (with_choices (Scalar (VInt 1)) [] (blank_field "f"))
           (VInt 1) (VBool true) (VInt 1)); reflexivity.
Defined.

(** *** What SelectWidget reads of the field *)

Lemma mapM_res_ext {A B} (f g : A → res B) (l : list A) :
  Forall (λ x, f x = g x) l → mapM f l = mapM g l.
Proof.
  induction 1 as [|x l Hx _ IH]; [done|].
  by rewrite !mapM_res_cons, Hx, IH.
Qed.

Lemma render_choice_reads_data `{Host} (f f' : Field) (c : choice_entry) :
  field_data f = field_data f' → render_choice f c = render_choice f' c.
Proof.
  intros Hdata. induction c as [key val label|label choices IH|]
    using choice_entry_nested_ind; [| |done].
  - rewrite !render_choice_Choice. unfold is_selected. by rewrite Hdata.
  - rewrite !render_choice_Choices. unfold render_optgroup, render_optgroup_with.
    by rewrite (mapM_res_ext _ _ _ IH).
Qed.

(** X15. [SelectWidget] reads of the field only its id, name, data and
    choice sequence. Validators play no part (a [DataRequired] validator
    does not make the select [required]), and a [widget_options] attribute
    is not read, so it cannot make the call fail as it does for an
    HTML5Input widget. *)
Theorem SelectWidget_call_reads `{Host} (self : SelectWidget) (f f' : Field)
    (kw : dict) (h : heap) :
  field_id f = field_id f' →
  field_name f = field_name f' →
  field_data f = field_data f' →
  iter_choices f = iter_choices f' →
  (SelectWidget_call self f kw h).1 = (SelectWidget_call self f' kw h).1.
Proof.
  intros Hid Hname Hdata Hchoices. rewrite !SelectWidget_call_run. simpl.
  unfold select_markup, select_kwargs. rewrite Hid, Hname, Hchoices.
  destruct (with_keyword _ _ _) as [params|e]; simpl; [|done].
  rewrite (mapM_res_ext (render_choice f) (render_choice f')); [done|].
  apply Forall_forall. intros c _. by apply render_choice_reads_data.
Qed.

Lemma SelectWidget_call_reads_witness :
  (@SelectWidget_call wtforms_1_0 single_select
     (with_widget_options [("size", VInt 3)]
        (with_validators [DataRequiredV]
           (with_choices (Scalar (VStr "b")) abc_choices (blank_field "f")))) ∅ []).1
  = (@SelectWidget_call wtforms_1_0 single_select
       (with_choices (Scalar (VStr "b")) abc_choices (blank_field "f")) ∅ []).1.
Proof.
  apply (@SelectWidget_call_reads wtforms_1_0 single_select
           (with_widget_options [("size", VInt 3)]
              (with_validators [DataRequiredV]
                 (with_choices (Scalar (VStr "b")) abc_choices (blank_field "f"))))
           (with_choices (Scalar (VStr "b")) abc_choices (blank_field "f")) ∅ []);
    reflexivity.
Defined.

(** ** Labels that need no escaping *)

Lemma string_length_app (s t : string) :
  String.length (s +:+ t) = (String.length s + String.length t)%nat.
Proof.
  induction s as [|a s IH]; [done|]. rewrite string_app_cons. simpl. by rewrite IH.
Qed.

Lemma replace_char_absent (c : ascii) (r s : string) :
  occurs c s = false → replace_char c r s = s.
Proof.
  induction s as [|a s IH]; [done|]. simpl.
  intros [Ha Hs]%orb_false_iff. by rewrite Ha, IH.
Qed.

Lemma replace_char_length_ge (c : ascii) (r s : string) :
  (1 ≤ String.length r)%nat →
  (String.length s ≤ String.length (replace_char c r s))%nat.
Proof.
  intros Hr. induction s as [|a s IH]; [done|]. simpl.
  destruct (bool_decide (a = c)); [rewrite string_length_app|]; simpl; lia.
Qed.

Lemma replace_char_length_gt (c : ascii) (r s : string) :
  (2 ≤ String.length r)%nat → occurs c s = true →
  (String.length s < String.length (replace_char c r s))%nat.
Proof.
  intros Hr. induction s as [|a s IH]; [done|]. simpl.
  pose proof (replace_char_length_ge c r s) as Hge.
  destruct (bool_decide (a = c)); simpl.
  - intros _. rewrite string_length_app. lia.
  - intros Hs. specialize (IH Hs). lia.
Qed.

(** X16. A label is inserted unchanged exactly when its text holds none of
    [&], [<] and [>]; the text of any other label is changed by [escape],
    so a label that was escaped beforehand is escaped again. *)
Theorem escape_identity_iff (s : string) :
  escape s false = s
  ↔ occurs "&"%char s = false ∧ occurs "<"%char s = false ∧ occurs ">"%char s = false.
Proof.
  split.
  - intros Hid.
    assert (occurs "<"%char s = false) as Hlt by (rewrite <- Hid; apply escape_no_lt).
    assert (occurs ">"%char s = false) as Hgt by (rewrite <- Hid; apply escape_no_gt).
    split_and!; [|done|done].
    destruct (occurs "&"%char s) eqn:Hamp; [|done]. exfalso.
    assert (String.length s < String.length (replace_char "&"%char "&amp;" s))%nat
      as H1 by (apply replace_char_length_gt; [simpl; lia|done]).
    assert (String.length (replace_char "&"%char "&amp;" s)
            ≤ String.length (replace_char "<"%char "&lt;"
                               (replace_char "&"%char "&amp;" s)))%nat
      as H2 by (apply replace_char_length_ge; simpl; lia).
    assert (String.length (replace_char "<"%char "&lt;"
                             (replace_char "&"%char "&amp;" s))
            ≤ String.length (escape s false))%nat
      as H3 by (apply replace_char_length_ge; simpl; lia).
    rewrite Hid in H3. lia.
  - intros (Hamp & Hlt & Hgt). unfold escape. cbv zeta.
    by rewrite (replace_char_absent "&"%char), (replace_char_absent "<"%char),
      (replace_char_absent ">"%char).
Qed.

Example escape_twice :
  escape (escape "a<b" false) false = "a&amp;lt;b".
Proof. by vm_compute. Qed.

(** ** Constructing a widget *)

(** [HTML5Input.__init__(self, **kwargs)] for a widget of class [c]: the
    keyword arguments, bound in a new dict, become [self.options]. *)
Definition HTML5Input_init (c : HTML5Input_class) (kw : dict) : M HTML5Input :=
  kwargs ← new_dict kw;
  mret {| widget_class := c; options := kwargs |}.

(** X17. A widget constructed with base options and then called, from any
    store: the base renderer receives the caller's keywords over the
    derived defaults over the options given at construction. Each widget
    has a dict of its own: constructing and calling a second widget in
    between does not change what the first one renders, and the second
    renders with its own options. *)
Theorem HTML5Input_init_then_call `{Host} (c c' : HTML5Input_class)
    (opts opts' kw : dict) (field : Field) (h : heap) :
  widget_options field = None →
  ∃ w h1 w' h2,
    HTML5Input_init c opts h = (Ok w, h1) ∧
    HTML5Input_init c' opts' h1 = (Ok w', h2) ∧
    (HTML5Input_call w field kw h1).1
      = Input_call (input_type c) field (merged_attributes c field opts kw) ∧
    (HTML5Input_call w' field kw h2).1
      = Input_call (input_type c') field (merged_attributes c' field opts' kw) ∧
    (HTML5Input_call w field kw (HTML5Input_call w' field kw h2).2).1
      = Input_call (input_type c) field (merged_attributes c field opts kw).
Proof.
  intros Hno.
  exists {| widget_class := c; options := length h |}, (h ++ [opts]).
  exists {| widget_class := c'; options := length (h ++ [opts]) |},
    ((h ++ [opts]) ++ [opts']).
  split_and!; [done|done|..].
  - rewrite HTML5Input_call_returns; [|rewrite length_app; simpl; lia|done].
    simpl. by rewrite deref_fresh.
  - rewrite HTML5Input_call_returns; [|rewrite !length_app; simpl; lia|done].
    simpl. by rewrite deref_fresh.
  - rewrite (HTML5Input_call_returns {| widget_class := c'; options := _ |});
      [|rewrite !length_app; simpl; lia|done].
    simpl. rewrite HTML5Input_call_returns;
      [|rewrite !length_app; simpl; lia|done].
    simpl. rewrite <- (assoc_L (++) (h ++ [opts]) [opts']).
    rewrite deref_extends by (rewrite length_app; simpl; lia).
    by rewrite deref_fresh.
Qed.

Lemma HTML5Input_init_then_call_witness :
  ∃ w h1 w' h2,
    HTML5Input_init NumberInput {["min" := VInt 0]} [] = (Ok w, h1) ∧
    HTML5Input_init TextInput {["class_" := VStr "t"]} h1 = (Ok w', h2) ∧
    (@HTML5Input_call wtforms_1_0 w docstring_field ∅ h1).1
      = @Input_call wtforms_1_0 (input_type NumberInput) docstring_field
          (merged_attributes NumberInput docstring_field {["min" := VInt 0]} ∅) ∧
    (@HTML5Input_call wtforms_1_0 w' docstring_field ∅ h2).1
      = @Input_call wtforms_1_0 (input_type TextInput) docstring_field
          (merged_attributes TextInput docstring_field {["class_" := VStr "t"]} ∅) ∧
    (@HTML5Input_call wtforms_1_0 w docstring_field ∅
       (@HTML5Input_call wtforms_1_0 w' docstring_field ∅ h2).2).1
      = @Input_call wtforms_1_0 (input_type NumberInput) docstring_field
          (merged_attributes NumberInput docstring_field {["min" := VInt 0]} ∅).
Proof.
  apply (@HTML5Input_init_then_call wtforms_1_0 NumberInput TextInput
           {["min" := VInt 0]} {["class_" := VStr "t"]} ∅ docstring_field []).
  reflexivity.
Defined.

(** ** When rendering a select fails *)

Lemma mapM_render_choice_Raise `{Host} (field : Field) (choices : list choice_entry)
    (e : exc) :
  mapM (render_choice field) choices = Raise e → e = TypeError.
Proof.
  intros Hm. apply mapM_res_Raise in Hm as (c & _ & Hc).
  by apply render_choice_Raise in Hc.
Qed.

Lemma mapM_render_choice_not_recognized `{Host} (field : Field)
    (choices : list choice_entry) :
  Forall (λ c, recognized c = false →
               render_choice field c = Ok None ∨ render_choice field c = Raise TypeError)
    choices →
  forallb recognized choices = false →
  mapM (render_choice field) choices = Raise TypeError
  ∨ ∃ rendered, mapM (render_choice field) choices = Ok rendered ∧ None ∈ rendered.
Proof.
  induction 1 as [|c cs Hc _ IH]; [done|].
  intros Hrec. simpl in Hrec. rewrite mapM_res_cons.
  destruct (recognized c) eqn:Hrc.
  - destruct (render_choice_recognized field c Hrc) as [s ->]. simpl.
    destruct (IH Hrec) as [->|(rendered & -> & Hin)]; [by left|].
    right. eexists. split; [done|]. by right.
  - destruct (Hc eq_refl) as [->| ->]; [|by left]. simpl.
    destruct (mapM (render_choice field) cs) as [rendered|e] eqn:Hm; simpl.
    + right. eexists. split; [done|]. by left.
    + left. by rewrite (mapM_render_choice_Raise field cs e Hm).
Qed.

(** An entry that is not recognized, at any depth, yields [None] or a
    [TypeError]. *)
Lemma render_choice_not_recognized `{Host} (field : Field) (c : choice_entry) :
  recognized c = false →
  render_choice field c = Ok None ∨ render_choice field c = Raise TypeError.
Proof.
  induction c as [key val label|label choices IH|]
    using choice_entry_nested_ind; intros Hrec; [done| |by left].
  right. rewrite render_choice_Choices. unfold render_optgroup, render_optgroup_with.
  destruct (mapM_render_choice_not_recognized field choices IH Hrec)
    as [->|(rendered & -> & Hin)]; [done|].
  simpl. by rewrite py_join_None.
Qed.

Lemma select_markup_not_recognized `{Host} (self : SelectWidget) (field : Field)
    (kw : dict) :
  forallb recognized (iter_choices field) = false →
  select_markup self field kw = Raise TypeError.
Proof.
  intros Hrec. unfold select_markup.
  destruct (with_keyword _ _ _) as [params|e] eqn:Hw; simpl.
  - destruct (mapM_render_choice_not_recognized field (iter_choices field))
      as [->|(rendered & -> & Hin)]; [|done|done|].
    + apply Forall_forall. intros c _. apply render_choice_not_recognized.
    + simpl. apply py_join_None. apply elem_of_cons. right.
      apply elem_of_app. by left.
  - unfold with_keyword in Hw. destruct (_ !! "name"); by simplify_eq.
Qed.

(** X18. [SelectWidget.__call__] fails in exactly two cases, and then with
    [TypeError]: the caller passed a [name] keyword, or some entry of the
    choice sequence, at any depth inside groups, is neither a [Choice] nor
    a [Choices]. In every other case it returns markup. *)
Theorem SelectWidget_call_fails_iff `{Host} (self : SelectWidget) (field : Field)
    (kw : dict) (h : heap) :
  ((SelectWidget_call self field kw h).1 = Raise TypeError
   ↔ is_Some (kw !! "name") ∨ forallb recognized (iter_choices field) = false) ∧
  (∀ e, (SelectWidget_call self field kw h).1 = Raise e → e = TypeError) ∧
  ((∃ s, (SelectWidget_call self field kw h).1 = Ok s)
   ↔ kw !! "name" = None ∧ forallb recognized (iter_choices field) = true).
Proof.
  destruct (kw !! "name") as [v|] eqn:Hname.
  - assert ((SelectWidget_call self field kw h).1 = Raise TypeError) as Hr.
    { rewrite SelectWidget_call_run. simpl. unfold select_markup, with_keyword.
      by rewrite select_kwargs_name, Hname. }
    rewrite Hr. split_and!.
    + split; [intros _; left; eauto|done].
    + by intros e [= <-].
    + split; [by intros [s Hs]|by intros [Hn _]].
  - destruct (forallb recognized (iter_choices field)) eqn:Hrec.
    + rewrite SelectWidget_call_recognized by done. split_and!.
      * split; [done|]. intros [[v Hv]|Hf]; done.
      * done.
      * split; [done|eauto].
    + assert ((SelectWidget_call self field kw h).1 = Raise TypeError) as Hr.
      { rewrite SelectWidget_call_run. simpl. by apply select_markup_not_recognized. }
      rewrite Hr. split_and!.
      * split; [intros _; by right|done].
      * by intros e [= <-].
      * split; [by intros [s Hs]|by intros [_ Hf]].
Qed.

Example select_unrecognized_in_nested_group :
  (@SelectWidget_call wtforms_1_0 single_select
     (with_choices (Scalar VNone)
        [Choices (VStr "outer") [Choices (VStr "inner") [Unrecognized]]]
        (blank_field "f")) ∅ []).1
  = Raise TypeError.
Proof. by vm_compute. Qed.

(** ** The table of input types *)

(** X19. No two widget classes share an [input_type]: the type attribute
    of the rendered input identifies the class of the widget. *)
Theorem input_type_inj (c c' : HTML5Input_class) :
  input_type c = input_type c' ↔ c = c'.
Proof.
  split; [|by intros ->].
  destruct c as [| | | | | | | | | [] |], c' as [| | | | | | | | | [] |];
    simpl; intros Heq; first [reflexivity | discriminate Heq].
Qed.
